(** * Medical-Organiser: the document-understanding pipeline (AIProcessor)

    A shallow embedding of [backend/src/services/aiProcessor.ts] and the
    properties of its extraction pipeline.

    - JavaScript values are an inductive type; objects are association
      lists in the order of their own properties, which is observable.
      The file is a module, so its code runs in strict mode.
    - Strings are sequences of code units below 256; a JSON text that
      escapes a code unit above them is outside the model
      ([JSON.narrow]).
    - Calls to the outside (language model, OCR, PDF parser, file system,
      clock) go through a [World] of oracles and are recorded in a log;
      methods are computations in a state-and-exception monad, and an
      awaited promise that rejects is a thrown error.
    - Console logging is not modelled, nor are [buildNotes], which
      nothing calls and which prints values of any type, and
      [trainClassifier], which only feeds the module-level classifier.
    - Of [routes/records.ts], the upload filter, the medication filter
      and the processing step of the creation handler are modelled;
      the rest of the handlers works on the database. *)

From Stdlib Require Import String Ascii List ZArith Bool Lia DecimalString.
Import ListNotations.
Set Warnings "-register-all".
Local Open Scope string_scope.
Local Open Scope list_scope.

(* ================================================================== *)
(** * JavaScript values *)
(* ================================================================== *)

Module JS.

(** A number is the double nearest to the decimal
    [mantissa * 10 ^ exponent] it is written as.  An array may carry
    named properties besides its elements, as every JavaScript object
    can. *)
Inductive value : Type :=
| VUndefined
| VNull
| VBool (b : bool)
| VNum (mantissa exponent : Z)
| VStr (s : string)
| VArr (elems : list value) (props : list (string * value))
| VObj (props : list (string * value)).

(** Thrown values: [Error] objects with their message, and strings, as
    some libraries reject with. *)
Inductive exn : Type :=
| Error (message : string)
| TypeError (message : string)
| SyntaxError (message : string)
| Rejected (reason : string).

(** [error.message] as a string concatenation prints it: a string has
    no [message], which prints as [undefined]. *)
Definition message (e : exn) : string :=
  match e with
  | Error m | TypeError m | SyntaxError m => m
  | Rejected _ => "undefined"
  end.

Inductive result (A : Type) : Type :=
| Ok (a : A)
| Throw (e : exn).
Arguments Ok {A} a.
Arguments Throw {A} e.

Definition is_empty (s : string) : bool :=
  match s with
  | EmptyString => true
  | String _ _ => false
  end.

(** The double nearest to [m * 10 ^ e] is zero: [m] is zero, or the
    decimal is at most half the least positive double, [2 ^ -1075] (a
    tie goes to the even neighbour, zero). *)
Definition roundsToZero (m e : Z) : bool :=
  if (0 <=? e)%Z then (m =? 0)%Z
  else (Z.abs m * 2 ^ 1075 <=? 10 ^ (- e))%Z.

(** ToBoolean. *)
Definition truthy (v : value) : bool :=
  match v with
  | VUndefined | VNull => false
  | VBool b => b
  | VNum m e => negb (roundsToZero m e)
  | VStr s => negb (is_empty s)
  | VArr _ _ | VObj _ => true
  end.

(** [a || b]: the first operand when it is truthy, else the second. *)
Definition orElse (a b : value) : value := if truthy a then a else b.

Definition nullish (v : value) : bool :=
  match v with
  | VUndefined | VNull => true
  | _ => false
  end.

(** [typeof v === 'object'] *)
Definition typeof_object (v : value) : bool :=
  match v with
  | VNull | VArr _ _ | VObj _ => true
  | _ => false
  end.

(** [Array.isArray(v)] *)
Definition isArray (v : value) : bool :=
  match v with
  | VArr _ _ => true
  | _ => false
  end.

Fixpoint lookup (k : string) (ps : list (string * value)) : value :=
  match ps with
  | [] => VUndefined
  | (k', v) :: ps' => if String.eqb k k' then v else lookup k ps'
  end.

Fixpoint has_key (k : string) (ps : list (string * value)) : bool :=
  match ps with
  | [] => false
  | (k', _) :: ps' => String.eqb k k' || has_key k ps'
  end.

(** The number a run of decimal digits writes. *)
Fixpoint decimal (s : string) (acc : Z) : option Z :=
  match s with
  | EmptyString => Some acc
  | String c s' =>
      let n := nat_of_ascii c in
      if (Nat.leb 48 n && Nat.leb n 57)%bool
      then decimal s' (acc * 10 + Z.of_nat (n - 48))%Z
      else None
  end.

(** The array index a property name is, if it is one: a decimal without
    a leading zero, below [2 ^ 32 - 1]. *)
Definition arrayIndex (k : string) : option Z :=
  match k with
  | EmptyString => None
  | String c rest =>
      if Ascii.eqb c "0" then (if is_empty rest then Some 0%Z else None)
      else match decimal k 0 with
           | Some n => if (n <? 4294967295)%Z then Some n else None
           | None => None
           end
  end.

(** In the order of the own properties of an object, the array indices
    come first, in ascending order, then the other names in the order
    they were created: [new_key] comes before [old_key], created
    earlier. *)
Definition comesBefore (new_key old_key : string) : bool :=
  match arrayIndex new_key, arrayIndex old_key with
  | Some n, Some n' => (n <? n')%Z
  | Some _, None => true
  | None, _ => false
  end.

(** Writing a property keeps the position of an existing key and puts
    a new one at its place in the order of the own properties. *)
Fixpoint update (k : string) (v : value) (ps : list (string * value))
  : list (string * value) :=
  match ps with
  | [] => [(k, v)]
  | (k', v') :: ps' =>
      if String.eqb k k' then (k, v) :: ps'
      else if comesBefore k k' && negb (has_key k ps') then (k, v) :: ps
      else (k', v') :: update k v ps'
  end.

(** Reading the named property [k] of a value that is neither [null]
    nor [undefined].  The program only reads names that are not array
    indices nor built-in properties, so primitives and the element part
    of an array answer [undefined]. *)
Definition own (v : value) (k : string) : value :=
  match v with
  | VObj ps => lookup k ps
  | VArr _ ps => lookup k ps
  | _ => VUndefined
  end.

(** [v.k] *)
Definition get_prop (v : value) (k : string) : result value :=
  if nullish v
  then Throw (TypeError ("Cannot read properties of null or undefined, reading " ++ k))
  else Ok (own v k).

(** [v?.k] *)
Definition get_opt (v : value) (k : string) : value :=
  if nullish v then VUndefined else own v k.

(** [v.k = x] in strict mode (module code): creating a property on a
    primitive throws. *)
Definition set_prop (v : value) (k : string) (x : value) : result value :=
  match v with
  | VObj ps => Ok (VObj (update k x ps))
  | VArr l ps => Ok (VArr l (update k x ps))
  | VUndefined | VNull =>
      Throw (TypeError ("Cannot set properties of null or undefined, setting " ++ k))
  | _ => Throw (TypeError ("Cannot create property " ++ k))
  end.

(** [v.length > 0] for the values the program applies it to. *)
Definition length_positive (v : value) : bool :=
  match v with
  | VArr l _ => negb (Nat.eqb (List.length l) 0)
  | VStr s => negb (is_empty s)
  | _ => false
  end.

(** ** String operations *)

Definition nl : string := String "010"%char EmptyString.
Definition dquote : string := String "034"%char EmptyString.

(** White space and line terminators of [String.prototype.trim], among
    the code units below 256. *)
Definition is_space (c : ascii) : bool :=
  let n := nat_of_ascii c in
  (Nat.eqb n 9 || Nat.eqb n 10 || Nat.eqb n 11 || Nat.eqb n 12
   || Nat.eqb n 13 || Nat.eqb n 32 || Nat.eqb n 160)%bool.

Fixpoint trimStart (s : string) : string :=
  match s with
  | EmptyString => EmptyString
  | String c s' => if is_space c then trimStart s' else s
  end.

Fixpoint rev_append (s acc : string) : string :=
  match s with
  | EmptyString => acc
  | String c s' => rev_append s' (String c acc)
  end.

Definition reverse (s : string) : string := rev_append s EmptyString.

Definition trimEnd (s : string) : string := reverse (trimStart (reverse s)).

(** [s.trim()] *)
Definition trim (s : string) : string := trimEnd (trimStart s).

(** [s.split(c)[0]] *)
Fixpoint split_head (c : ascii) (s : string) : string :=
  match s with
  | EmptyString => EmptyString
  | String c' s' => if Ascii.eqb c c' then EmptyString else String c' (split_head c s')
  end.

Fixpoint drop (n : nat) (s : string) : string :=
  match n, s with
  | S n', String _ s' => drop n' s'
  | _, _ => s
  end.

End JS.

(* ================================================================== *)
(** * JSON.parse *)
(* ================================================================== *)

(** The built-in parser, as a recursive-descent reader with a recursion
    budget taken from the length of the text.  Character escapes above
    code unit 255 are outside the string model and are refused. *)
Module JSON.
Import JS.

Definition is_ws (c : ascii) : bool :=
  let n := nat_of_ascii c in
  (Nat.eqb n 32 || Nat.eqb n 9 || Nat.eqb n 10 || Nat.eqb n 13)%bool.

Fixpoint skip_ws (s : string) : string :=
  match s with
  | EmptyString => EmptyString
  | String c s' => if is_ws c then skip_ws s' else s
  end.

Definition digit_of (c : ascii) : option Z :=
  let n := nat_of_ascii c in
  if (Nat.leb 48 n && Nat.leb n 57)%bool then Some (Z.of_nat (n - 48)) else None.

Definition hex_of (c : ascii) : option nat :=
  let n := nat_of_ascii c in
  if (Nat.leb 48 n && Nat.leb n 57)%bool then Some (n - 48)
  else if (Nat.leb 65 n && Nat.leb n 70)%bool then Some (n - 55)
  else if (Nat.leb 97 n && Nat.leb n 102)%bool then Some (n - 87)
  else None.

(** Reads a run of digits: the accumulated number, how many digits were
    read, and the rest. *)
Fixpoint digits (s : string) (acc : Z) (count : nat) : Z * nat * string :=
  match s with
  | EmptyString => (acc, count, s)
  | String c s' =>
      match digit_of c with
      | Some d => digits s' (acc * 10 + d)%Z (S count)
      | None => (acc, count, s)
      end
  end.

(** [int frac? exp?] after an optional minus sign. *)
Definition unsigned_number (s : string) : option (Z * Z * string) :=
  let int_part :=
    match s with
    | String "0" s' => Some (0%Z, s')
    | _ => match digits s 0%Z 0 with
           | (_, O, _) => None
           | (n, _, rest) => Some (n, rest)
           end
    end in
  match int_part with
  | None => None
  | Some (n, rest) =>
      let frac_part :=
        match rest with
        | String "." r =>
            match digits r n 0 with
            | (_, O, _) => None
            | (m, k, r') => Some (m, (- Z.of_nat k)%Z, r')
            end
        | _ => Some (n, 0%Z, rest)
        end in
      match frac_part with
      | None => None
      | Some (m, e, rest') =>
          let exponent (r : string) (sign : Z) :=
            match digits r 0%Z 0 with
            | (_, O, _) => None
            | (x, _, r') => Some (m, (e + sign * x)%Z, r')
            end in
          match rest' with
          | String c r =>
              if (Ascii.eqb c "e" || Ascii.eqb c "E")%bool then
                match r with
                | String "+" r' => exponent r' 1%Z
                | String "-" r' => exponent r' (-1)%Z
                | _ => exponent r 1%Z
                end
              else Some (m, e, rest')
          | EmptyString => Some (m, e, rest')
          end
      end
  end.

Definition number (s : string) : option (value * string) :=
  match s with
  | String "-" s' =>
      match unsigned_number s' with
      | Some (m, e, rest) => Some (VNum (- m) e, rest)
      | None => None
      end
  | _ =>
      match unsigned_number s with
      | Some (m, e, rest) => Some (VNum m e, rest)
      | None => None
      end
  end.

(** The characters of a string literal after its opening quote, up to
    and including the closing quote. *)
Fixpoint string_body (s : string) : option (string * string) :=
  let cons (c : ascii) (r : option (string * string)) :=
    match r with
    | Some (str, rest) => Some (String c str, rest)
    | None => None
    end in
  match s with
  | EmptyString => None
  | String "034" rest => Some (EmptyString, rest)
  | String "\" (String e s') =>
      match e with
      | "034"%char => cons "034"%char (string_body s')
      | "\"%char => cons "\"%char (string_body s')
      | "/"%char => cons "/"%char (string_body s')
      | "b"%char => cons "008"%char (string_body s')
      | "f"%char => cons "012"%char (string_body s')
      | "n"%char => cons "010"%char (string_body s')
      | "r"%char => cons "013"%char (string_body s')
      | "t"%char => cons "009"%char (string_body s')
      | "u"%char =>
          match s' with
          | String a (String b (String c (String d s''))) =>
              match hex_of a, hex_of b, hex_of c, hex_of d with
              | Some 0, Some 0, Some h, Some l =>
                  cons (ascii_of_nat (16 * h + l)) (string_body s'')
              | _, _, _, _ => None
              end
          | _ => None
          end
      | _ => None
      end
  | String c s' =>
      if Nat.ltb (nat_of_ascii c) 32 then None else cons c (string_body s')
  end.

Section Composite.
(** The reader of one value, at a smaller budget. *)
Variable value_at : string -> option (value * string).

(** Elements after the first, up to the closing bracket. *)
Fixpoint elements (fuel : nat) (s : string) (acc : list value)
  : option (value * string) :=
  match fuel with
  | O => None
  | S fuel' =>
      match value_at s with
      | None => None
      | Some (v, rest) =>
          match skip_ws rest with
          | String "," rest' => elements fuel' rest' (acc ++ [v])
          | String "]" rest' => Some (VArr (acc ++ [v]) [], rest')
          | _ => None
          end
      end
  end.

(** Members up to the closing brace, in the order of the own
    properties; a repeated key keeps its position and its last value. *)
Fixpoint members (fuel : nat) (s : string) (acc : list (string * value))
  : option (value * string) :=
  match fuel with
  | O => None
  | S fuel' =>
      match skip_ws s with
      | String "034" s1 =>
          match string_body s1 with
          | None => None
          | Some (k, s2) =>
              match skip_ws s2 with
              | String ":" s3 =>
                  match value_at s3 with
                  | None => None
                  | Some (v, rest) =>
                      match skip_ws rest with
                      | String "," rest' => members fuel' rest' (update k v acc)
                      | String "}" rest' => Some (VObj (update k v acc), rest')
                      | _ => None
                      end
                  end
              | _ => None
              end
          end
      | _ => None
      end
  end.
End Composite.

Fixpoint value_at (fuel : nat) (s : string) : option (value * string) :=
  match fuel with
  | O => None
  | S fuel' =>
      match skip_ws s with
      | String "{" s1 =>
          match skip_ws s1 with
          | String "}" rest => Some (VObj [], rest)
          | _ => members (value_at fuel') fuel' s1 []
          end
      | String "[" s1 =>
          match skip_ws s1 with
          | String "]" rest => Some (VArr [] [], rest)
          | _ => elements (value_at fuel') fuel' s1 []
          end
      | String "034" s1 =>
          match string_body s1 with
          | Some (str, rest) => Some (VStr str, rest)
          | None => None
          end
      | s0 =>
          if prefix "true" s0 then Some (VBool true, drop 4 s0)
          else if prefix "false" s0 then Some (VBool false, drop 5 s0)
          else if prefix "null" s0 then Some (VNull, drop 4 s0)
          else number s0
      end
  end.

(** [JSON.parse(s)] *)
Definition parse (s : string) : result value :=
  match value_at (S (String.length s)) s with
  | Some (v, rest) =>
      if is_empty (skip_ws rest) then Ok v
      else Throw (SyntaxError "Unexpected non-whitespace character after JSON")
  | None => Throw (SyntaxError "Unexpected token in JSON")
  end.


End JSON.

(* ================================================================== *)
(** * The outside world and the method monad *)
(* ================================================================== *)

Module Runtime.
Import JS.

Record Message := { role : string; content : string }.

(** A chat-completion request; [temperature] is the decimal
    [mantissa * 10 ^ exponent]. *)
Record ChatRequest := {
  model : string;
  messages : list Message;
  temperature : option (Z * Z);
  max_tokens : Z
}.

(** The fields of [Express.Multer.File] the processor reads. *)
Record File := {
  originalname : string;
  mimetype : string;
  path : string
}.

(** An entry of the vector store. *)
Record IndexedDocument := {
  pageContent : string;
  metadata : value
}.

(** Calls that leave the process. *)
Inductive call : Type :=
| ChatCompletionsCreate (req : ChatRequest)
| ReadFileSync (file : string)
| PdfParse (buffer : string)
| TesseractRecognize (image lang : string)
| EmbedQuery (query : string).

(** The outside world answers a call knowing the calls made before it.
    A completion answers with [choices[0]?.message?.content], [None]
    when that is [null] or [undefined].  Embedding a query answers with
    the similarity the embedding gives each stored entry, or fails as
    any call to the outside can. *)
Record World := {
  chat_completions_create : list call -> ChatRequest -> result (option string);
  fs_readFileSync : list call -> string -> result string;
  pdf_parse : list call -> string -> result string;
  tesseract_recognize : list call -> string -> string -> result string;
  date_toISOString : list call -> string;
  embeddings_embedQuery : list call -> string -> result (IndexedDocument -> Z)
}.

(** The state of the process: the store held by the singleton and the
    log of calls. *)
Record State := {
  vectorStore : list IndexedDocument;
  calls : list call
}.

Definition M (A : Type) : Type := State -> result A * State.

Definition ret {A} (a : A) : M A := fun s => (Ok a, s).

Definition bind {A B} (m : M A) (f : A -> M B) : M B :=
  fun s =>
    match m s with
    | (Ok a, s') => f a s'
    | (Throw e, s') => (Throw e, s')
    end.

Definition throw {A} (e : exn) : M A := fun s => (Throw e, s).

(** [try { m } catch (e) { handler e }] *)
Definition try_catch {A} (m : M A) (handler : exn -> M A) : M A :=
  fun s =>
    match m s with
    | (Ok a, s') => (Ok a, s')
    | (Throw e, s') => handler e s'
    end.

Definition lift {A} (r : result A) : M A := fun s => (r, s).

(** An awaited call to the outside: logged, answered by the world. *)
Definition external {A} (c : call) (answer : list call -> result A) : M A :=
  fun s =>
    (answer (calls s),
     {| vectorStore := vectorStore s; calls := calls s ++ [c] |}).

Definition read_clock (clock : list call -> string) : M string :=
  fun s => (Ok (clock (calls s)), s).

(** [this.vectorStore], read. *)
Definition read_store : M (list IndexedDocument) :=
  fun s => (Ok (vectorStore s), s).

Definition and_then {A B} (r : result A) (f : A -> result B) : result B :=
  match r with
  | Ok a => f a
  | Throw e => Throw e
  end.

Fixpoint map_result {A B} (f : A -> result B) (l : list A) : result (list B) :=
  match l with
  | [] => Ok []
  | x :: l' =>
      and_then (f x) (fun y =>
      and_then (map_result f l') (fun ys => Ok (y :: ys)))
  end.

End Runtime.

Declare Scope js_scope.
Delimit Scope js_scope with js.
Notation "x <- m ;; k" := (Runtime.bind m (fun x => k))
  (at level 61, m at next level, right associativity) : js_scope.
Notation "'let?' x := r 'in' k" := (Runtime.and_then r (fun x => k))
  (at level 61, x name, r at next level, right associativity) : js_scope.
Local Open Scope js_scope.

(* ================================================================== *)
(** * AIProcessor *)
(* ================================================================== *)

Module AIProcessor.
Import JS Runtime.
Local Open Scope string_scope.

Definition empty : value := VStr EmptyString.

Definition str (s : string) : value := VStr s.

Definition quoted (s : string) : string := dquote ++ s ++ dquote.

(** ** Prompts *)

Definition extractionPrompt (text : string) : string :=
  String.concat nl
    [ "You are a medical document analyzer. Extract information from this medical document.";
      "        Return a JSON object with these fields:";
      "        - patientName (string): The full name of the patient";
      "        - date (YYYY-MM-DD): The date of the document/visit";
      "        - doctorName (string): The full name of the doctor";
      "        - diagnosis (string): Any diagnosis or medical condition mentioned";
      "        - prescription (array): Array of medication objects with EXACT names and instructions";
      "        - recordType (string): Must be one of: 'prescription', 'lab_report', 'consultation', or 'other'";
      "        - notes (string): Any additional notes, instructions, or follow-up details";
      EmptyString;
      "        For prescriptions, each medication object MUST have these EXACT fields:";
      "        {";
      "          " ++ quoted "medicineName" ++ ": " ++ quoted "EXACT medicine name as written" ++ ",";
      "          " ++ quoted "dosage" ++ ": " ++ quoted "EXACT dosage with frequency as written" ++ ",";
      "          " ++ quoted "duration" ++ ": " ++ quoted "EXACT duration of treatment as written" ++ ",";
      "          " ++ quoted "tablets" ++ ": " ++ quoted "EXACT number of tablets prescribed";
      "        }";
      EmptyString;
      "        IMPORTANT INSTRUCTIONS:";
      "        1. Extract EXACT text from the document, do not paraphrase or modify";
      "        2. For empty/missing fields, use empty string " ++ quoted EmptyString;
      "        3. For prescription array, if no medications found, use empty array []";
      "        4. Format dates as YYYY-MM-DD";
      "        5. Include ALL medication details found in the document";
      "        6. Return ONLY valid JSON, no other text";
      "        7. DO NOT add any fields that are not in this schema";
      "        8. DO NOT modify or clean up the extracted text - keep it exactly as written";
      "        9. DO NOT include any markdown formatting or code block markers";
      "        10. Return ONLY the raw JSON object";
      EmptyString;
      "        Document text:";
      "        " ++ text ].

Definition systemPrompt : string :=
  "You are a precise medical document analyzer. Extract information exactly as it appears, without modification. Return only raw JSON without any markdown formatting or code block markers.".

Definition extractionRequest (text : string) : ChatRequest :=
  {| model := "gpt-3.5-turbo";
     messages := [ {| role := "system"; content := systemPrompt |};
                   {| role := "user"; content := extractionPrompt text |} ];
     temperature := Some (0, 0)%Z;
     max_tokens := 1500 |}.

Definition summaryPrompt (text : string) : string :=
  "Summarize this medical document in a concise way:" ++ nl ++ "    " ++ text.

Definition summaryRequest (text : string) : ChatRequest :=
  {| model := "gpt-3.5-turbo";
     messages := [ {| role := "user"; content := summaryPrompt text |} ];
     temperature := Some (3, -1)%Z;
     max_tokens := 150 |}.

Definition testRequest : ChatRequest :=
  {| model := "gpt-3.5-turbo";
     messages := [ {| role := "user"; content := "Test connection" |} ];
     temperature := None;
     max_tokens := 5 |}.

(** ** Cleaning the model's answer *)

Definition fenceOpen : string := "```json" ++ nl.
Definition fenceClose : string := nl ++ "```".

(** [s.replace(/```json\n|\n```/g, '')]: at each position the first
    alternative that matches is removed and the scan resumes after it.
    [skip] counts the characters of a match still to be dropped. *)
Fixpoint replaceFences (skip : nat) (s : string) : string :=
  match s with
  | EmptyString => EmptyString
  | String c s' =>
      match skip with
      | S k => replaceFences k s'
      | O =>
          if prefix fenceOpen s then replaceFences (String.length fenceOpen - 1) s'
          else if prefix fenceClose s then replaceFences (String.length fenceClose - 1) s'
          else String c (replaceFences 0 s')
      end
  end.

Definition cleanResult (result : string) : string := trim (replaceFences 0 result).

(** [content || fallback] for a completion's content. *)
Definition content_or (content : option string) (fallback : string) : string :=
  match content with
  | Some c => if is_empty c then fallback else c
  | None => fallback
  end.

(** ** Medication normalization *)

(** [med && typeof med === 'object'] *)
Definition isMedicationObject (med : value) : bool :=
  truthy med && typeof_object med.

Definition canonicalMedication (med : value) : value :=
  VObj [ ("medicineName", orElse (get_opt med "medicineName") empty);
         ("dosage", orElse (get_opt med "dosage") empty);
         ("duration", orElse (get_opt med "duration") empty);
         ("tablets", orElse (get_opt med "tablets") empty) ].

(** [med.medicineName || med.dosage || med.duration || med.tablets] *)
Definition hasContent (med : value) : bool :=
  truthy (orElse (orElse (orElse (own med "medicineName") (own med "dosage"))
                 (own med "duration"))
             (own med "tablets")).

Definition normalizeMedications (prescription : list value) : list value :=
  filter hasContent (map canonicalMedication (filter isMedicationObject prescription)).

(** The elements of an array value. *)
Definition elements (v : value) : list value :=
  match v with
  | VArr l _ => l
  | _ => []
  end.

(** Lines 153-168: the [prescription] property of the parsed answer is
    overwritten in place. *)
Definition ensurePrescription (parsedData : value) : result value :=
  let? prescription := get_prop parsedData "prescription" in
  if negb (isArray prescription)
  then set_prop parsedData "prescription" (VArr [] [])
  else set_prop parsedData "prescription"
         (VArr (normalizeMedications (elements prescription)) []).

(** [new Date().toISOString().split('T')[0]] *)
Definition today (iso : string) : string := split_head "T" iso.

(** Lines 171-179. *)
Definition formatData (iso : string) (parsedData : value) : result value :=
  let? patientName := get_prop parsedData "patientName" in
  let? date := get_prop parsedData "date" in
  let? doctorName := get_prop parsedData "doctorName" in
  let? diagnosis := get_prop parsedData "diagnosis" in
  let? prescription := get_prop parsedData "prescription" in
  let? notes := get_prop parsedData "notes" in
  let? recordType := get_prop parsedData "recordType" in
  Ok (VObj [ ("patientName", orElse patientName empty);
             ("date", orElse date (str (today iso)));
             ("doctorName", orElse doctorName empty);
             ("diagnosis", orElse diagnosis empty);
             ("prescription", orElse prescription (VArr [] []));
             ("notes", orElse notes empty);
             ("recordType", orElse recordType (str "prescription")) ]).

(** The condition of line 182. *)
Definition hasMeaningfulData (formattedData : value) : bool :=
  truthy (own formattedData "patientName")
  || truthy (own formattedData "diagnosis")
  || length_positive (orElse (own formattedData "prescription") (VArr [] [])).

(** [!text || text.trim().length === 0], line 260. *)
Definition noText (text : string) : bool :=
  is_empty text || Nat.eqb (String.length (trim text)) 0.

Section Methods.
Variable w : World.

Definition chat (req : ChatRequest) : M (option string) :=
  external (ChatCompletionsCreate req) (fun h => chat_completions_create w h req).

(** Lines 37-54. *)
Definition testOpenAIConnection : M unit :=
  try_catch
    (_ <- chat testRequest ;; ret tt)
    (fun _ => throw (Error "Failed to connect to OpenAI API. Please check your API key.")).

(** The state the constructor leaves: an empty store, and the
    connection test started but not awaited. *)
Definition initial : State :=
  snd (testOpenAIConnection {| vectorStore := []; calls := [] |}).

Definition generateSummary (text : string) : M string :=
  response <- chat (summaryRequest text) ;;
  ret (content_or response EmptyString).

Definition extractStructuredData (text : string) : M value :=
  try_catch
    (response <- chat (extractionRequest text) ;;
     let result := content_or response "{}" in
     try_catch
       (parsedData <- lift (JSON.parse (cleanResult result)) ;;
        parsedData <- lift (ensurePrescription parsedData) ;;
        iso <- read_clock (date_toISOString w) ;;
        formattedData <- lift (formatData iso parsedData) ;;
        if hasMeaningfulData formattedData
        then summary <- generateSummary text ;;
             lift (set_prop formattedData "summary" (str summary))
        else ret formattedData)
       (fun parseError => throw (Error "Failed to parse AI response")))
    (fun error => throw error).

Definition extractText (file : File) : M string :=
  try_catch
    (text <- (if String.eqb (mimetype file) "application/pdf"
              then fileBuffer <- external (ReadFileSync (path file))
                                   (fun h => fs_readFileSync w h (path file)) ;;
                   external (PdfParse fileBuffer) (fun h => pdf_parse w h fileBuffer)
              else external (TesseractRecognize (path file) "eng")
                     (fun h => tesseract_recognize w h (path file) "eng")) ;;
     if noText text
     then throw (Error "No text could be extracted from the document")
     else ret text)
    (fun error =>
       throw (Error ("Failed to extract text from document: " ++ message error))).

(** Lines 288-293. *)
Definition copyMedication (med : value) : result value :=
  let? medicineName := get_prop med "medicineName" in
  let? dosage := get_prop med "dosage" in
  let? duration := get_prop med "duration" in
  let? tablets := get_prop med "tablets" in
  Ok (VObj [ ("medicineName", orElse medicineName empty);
             ("dosage", orElse dosage empty);
             ("duration", orElse duration empty);
             ("tablets", orElse tablets empty) ]).

(** Lines 282-300. *)
Definition medicalRecord (iso : string) (file : File) (text : string)
    (extractedData : value) : result value :=
  let? patientName := get_prop extractedData "patientName" in
  let? date := get_prop extractedData "date" in
  let? doctorName := get_prop extractedData "doctorName" in
  let? diagnosis := get_prop extractedData "diagnosis" in
  let? prescription := get_prop extractedData "prescription" in
  let? prescription :=
    (if isArray prescription
     then let? meds := map_result copyMedication (elements prescription) in
          Ok (VArr meds [])
     else Ok (VArr [] [])) in
  let? notes := get_prop extractedData "notes" in
  let? recordType := get_prop extractedData "recordType" in
  let? summary := get_prop extractedData "summary" in
  Ok (VObj [ ("patientName", orElse patientName empty);
             ("date", orElse date (str (today iso)));
             ("doctorName", orElse doctorName empty);
             ("diagnosis", orElse diagnosis empty);
             ("prescription", prescription);
             ("notes", orElse notes empty);
             ("recordType", orElse recordType (str "prescription"));
             ("documentType", orElse recordType (str "prescription"));
             ("filePath", str (path file));
             ("originalText", str text);
             ("summary", orElse summary empty) ]).

Definition processDocument (file : File) : M value :=
  try_catch
    (text <- extractText file ;;
     extractedData <- extractStructuredData text ;;
     iso <- read_clock (date_toISOString w) ;;
     lift (medicalRecord iso file text extractedData))
    (fun error => throw error).

(** Modelled from the spec: the ranking of section 4.5, by descending
    similarity, ties in insertion order.  [insertByScore] puts an
    earlier entry before the ranked later ones it is at least as
    similar as. *)
Fixpoint insertByScore (score : IndexedDocument -> Z) (d : IndexedDocument)
    (ranked : list IndexedDocument) : list IndexedDocument :=
  match ranked with
  | [] => [d]
  | x :: rest =>
      if (score x <=? score d)%Z then d :: x :: rest
      else x :: insertByScore score d rest
  end.

(** Modelled from the spec: the stored entries, most similar first. *)
Definition rank (score : IndexedDocument -> Z) (docs : list IndexedDocument)
  : list IndexedDocument :=
  fold_right (insertByScore score) [] docs.

(** Modelled from the spec: [MemoryVectorStore.similaritySearch], a
    method of the vector-store library, whose code is not part of the
    repository.  Section 4.5: the query is embedded, every stored entry
    is scored against it, and the [k] most similar entries are
    returned, most similar first.  Section 5: the embedding is a call
    to the outside, and a failure of it ends the invocation.  The
    embedding and the cosine are the world's [embeddings_embedQuery]. *)
Definition similaritySearch (query : string) (k : Z) : M (list IndexedDocument) :=
  score <- external (EmbedQuery query)
             (fun h => embeddings_embedQuery w h query) ;;
  store <- read_store ;;
  ret (firstn (Z.to_nat k) (rank score store)).

(** [limit: number = 5] *)
Definition searchSimilarDocuments (query : string) (limit : option Z)
  : M (list IndexedDocument) :=
  let limit := match limit with Some k => k | None => 5%Z end in
  results <- similaritySearch query limit ;;
  ret results.

(** ** The process as a sequence of requests *)

Inductive request : Type :=
| ProcessDocument (file : File)
| SearchSimilarDocuments (query : string) (limit : option Z).

(** The state after a request; a thrown error is handled by the
    caller and the process goes on. *)
Definition serve (s : State) (r : request) : State :=
  match r with
  | ProcessDocument file => snd (processDocument file s)
  | SearchSimilarDocuments query limit => snd (searchSimilarDocuments query limit s)
  end.

Definition serveAll (requests : list request) (s : State) : State :=
  fold_left serve requests s.

End Methods.

(** The calls made by running [m] from [s]. *)
Definition trace {A} (m : M A) (s : State) : list call :=
  skipn (List.length (calls s)) (calls (snd (m s))).

(** The record as it stands at line 179, from the completion's content. *)
Definition normalizedRecord (iso : string) (content : option string) : result value :=
  let? parsedData := JSON.parse (cleanResult (content_or content "{}")) in
  let? parsedData := ensurePrescription parsedData in
  formatData iso parsedData.

Definition topLevelKeys : list string :=
  [ "patientName"; "date"; "doctorName"; "diagnosis"; "prescription"; "notes";
    "recordType" ].

Definition medicationKeys : list string :=
  [ "medicineName"; "dosage"; "duration"; "tablets" ].

(** The default of each top-level key, lines 172-178. *)
Definition defaultOf (iso : string) (k : string) : value :=
  if String.eqb k "date" then str (today iso)
  else if String.eqb k "prescription" then VArr [] []
  else if String.eqb k "recordType" then str "prescription"
  else empty.

(** Objects and arrays: the values that can take a new property. *)
Definition isObjectLike (v : value) : bool :=
  match v with
  | VObj _ | VArr _ _ => true
  | _ => false
  end.

Definition keys (v : value) : list string :=
  match v with
  | VObj ps => map fst ps
  | VArr _ ps => map fst ps
  | _ => []
  end.

(** The state after one more call. *)
Definition logged (s : State) (c : call) : State :=
  {| vectorStore := vectorStore s; calls := (calls s ++ [c])%list |}.

Definition parseFailure : exn := Error "Failed to parse AI response".

(** The value lines 153-168 leave in [prescription]. *)
Definition normalizedPrescription (parsedData : value) : value :=
  if isArray (own parsedData "prescription")
  then VArr (normalizeMedications (elements (own parsedData "prescription"))) []
  else VArr [] [].

(** The object literal of lines 171-179. *)
Definition formattedOf (iso : string) (parsedData : value) : value :=
  VObj [ ("patientName", orElse (own parsedData "patientName") empty);
         ("date", orElse (own parsedData "date") (str (today iso)));
         ("doctorName", orElse (own parsedData "doctorName") empty);
         ("diagnosis", orElse (own parsedData "diagnosis") empty);
         ("prescription", orElse (own parsedData "prescription") (VArr [] []));
         ("notes", orElse (own parsedData "notes") empty);
         ("recordType", orElse (own parsedData "recordType") (str "prescription")) ].

(** The error [extractText] rethrows, line 267. *)
Definition extractionFailure (reason : string) : exn :=
  Error ("Failed to extract text from document: " ++ reason).

Definition noTextMessage : string := "No text could be extracted from the document".

(** Only white space. *)
Fixpoint allSpace (s : string) : bool :=
  match s with
  | EmptyString => true
  | String c s' => is_space c && allSpace s'
  end.

(** The result of the check of lines 260-264, as [extractText] hands it
    on. *)
Definition checked (text : string) (s : State) : result string * State :=
  if noText text then (Throw (extractionFailure noTextMessage), s) else (Ok text, s).

(** The upload filter of [routes/records.ts]. *)
Definition allowedTypes : list string :=
  [ "image/jpeg"; "image/png"; "image/gif"; "application/pdf" ].

Definition fileFilter (file : File) : bool :=
  existsb (String.eqb (mimetype file)) allowedTypes.


(** A computation that leaves the vector store as it found it. *)
Definition keepsStore {A} (m : M A) : Prop :=
  forall s, vectorStore (snd (m s)) = vectorStore s.

(** The keys of the record [processDocument] returns. *)
Definition recordKeys : list string :=
  (topLevelKeys ++ [ "documentType"; "filePath"; "originalText"; "summary" ])%list.

End AIProcessor.

(* ================================================================== *)
(** * Concrete worlds and inputs *)
(* ================================================================== *)

Module Examples.
Import JS Runtime AIProcessor.
Local Open Scope string_scope.

Definition fresh : State := {| vectorStore := []; calls := [] |}.

(** A world whose model answers the extraction request with
    [extraction] and any other request with [summary], and whose OCR
    and PDF parser both answer [document]. *)
Definition scripted (extraction summary : result (option string))
    (document : result string) : World :=
  {| chat_completions_create :=
       fun _ req => if (max_tokens req =? 1500)%Z then extraction else summary;
     fs_readFileSync := fun _ _ => Ok "%PDF-1.4";
     pdf_parse := fun _ _ => document;
     tesseract_recognize := fun _ _ _ => document;
     date_toISOString := fun _ => "2026-11-02T09:58:00.000Z";
     embeddings_embedQuery := fun _ _ => Ok (fun _ => 0%Z) |}.

(** The answer [{"patientName":"Jane Doe"}]. *)
Definition janeDoe : string :=
  "{" ++ quoted "patientName" ++ ":" ++ quoted "Jane Doe" ++ "}".

Definition janeDoeProps : list (string * value) :=
  [ ("patientName", VStr "Jane Doe") ].

(** A parsed answer whose prescription holds one medication with only
    its name, one with no field at all, and two entries that are not
    objects. *)
Definition aspirin : value := VObj [ ("medicineName", VStr "Aspirin") ].

Definition aspirinAnswer : value :=
  VObj [ ("patientName", VStr "Jane Doe");
         ("prescription", VArr [ aspirin; VObj []; VStr "Ibuprofen"; VNull ] []) ].

(** The record of line 179 for the answer [janeDoe] on 2026-11-02. *)
Definition janeDoeFormatted : value :=
  VObj [ ("patientName", VStr "Jane Doe"); ("date", VStr "2026-11-02");
         ("doctorName", empty); ("diagnosis", empty);
         ("prescription", VArr [] []); ("notes", empty);
         ("recordType", VStr "prescription") ].

Definition textFile : File :=
  {| originalname := "notes.txt"; mimetype := "text/plain";
     path := "uploads/document-1.txt" |}.

Definition scanFile : File :=
  {| originalname := "scan.png"; mimetype := "image/png";
     path := "uploads/document-2.png" |}.

Definition pdfFile : File :=
  {| originalname := "visit.pdf"; mimetype := "application/pdf";
     path := "uploads/document-3.pdf" |}.

(** A world whose OCR and PDF parser find only white space. *)
Definition blankWorld : World :=
  scripted (Ok None) (Ok None) (Ok ("  " ++ nl ++ " ")).

(** A world whose OCR and PDF parser fail. *)
Definition corruptWorld : World :=
  scripted (Ok None) (Ok None) (Throw (Error "Error attempting to read image.")).

(** The record returned for the answer [janeDoe] and the summary
    [Visit of Jane Doe.] *)
Definition janeDoeRecord : value :=
  VObj [ ("patientName", VStr "Jane Doe"); ("date", VStr "2026-11-02");
         ("doctorName", empty); ("diagnosis", empty);
         ("prescription", VArr [] []); ("notes", empty);
         ("recordType", VStr "prescription");
         ("summary", VStr "Visit of Jane Doe.") ].

(** A world whose model answers the extraction request with
    [janeDoe] and fails on the summary request. *)
Definition summaryDownWorld : World :=
  scripted (Ok (Some janeDoe)) (Throw (Error "429 Too Many Requests"))
    (Ok "Patient: Jane Doe").


(** An answer wrapped in a code fence, with one medication that has
    no [tablets] and one that has no field. *)
Definition amoxicillinAnswer : string :=
  "```json" ++ nl ++
  "{ " ++ quoted "patientName" ++ ": " ++ quoted "John Smith" ++ ", " ++
  quoted "doctorName" ++ ": " ++ quoted "Adams" ++ ", " ++
  quoted "date" ++ ": " ++ quoted "2024-03-05" ++ "," ++ nl ++
  "  " ++ quoted "prescription" ++ ": [ { " ++
  quoted "medicineName" ++ ": " ++ quoted "Amoxicillin" ++ ", " ++
  quoted "dosage" ++ ": " ++ quoted "500mg" ++ ", " ++
  quoted "duration" ++ ": " ++ quoted "7 days" ++ " }, {} ]," ++ nl ++
  "  " ++ quoted "recordType" ++ ": " ++ quoted "prescription" ++ " }" ++ nl ++
  "```".

Definition amoxicillinText : string :=
  "Patient: John Smith, Dr. Adams prescribed Amoxicillin 500mg for 7 days".

Definition amoxicillinWorld : World :=
  scripted (Ok (Some amoxicillinAnswer)) (Ok (Some "Amoxicillin for John Smith."))
    (Ok amoxicillinText).

(** The record [processDocument] returns in [amoxicillinWorld]. *)
Definition amoxicillinRecord : value :=
  VObj [ ("patientName", VStr "John Smith");
         ("date", VStr "2024-03-05");
         ("doctorName", VStr "Adams");
         ("diagnosis", empty);
         ("prescription",
          VArr [ VObj [ ("medicineName", VStr "Amoxicillin");
                        ("dosage", VStr "500mg");
                        ("duration", VStr "7 days");
                        ("tablets", empty) ] ] []);
         ("notes", empty);
         ("recordType", VStr "prescription");
         ("documentType", VStr "prescription");
         ("filePath", VStr "uploads/document-3.pdf");
         ("originalText", VStr amoxicillinText);
         ("summary", VStr "Amoxicillin for John Smith.") ].

(** What [extractStructuredData] returns in [amoxicillinWorld] after the
    text extraction of [pdfFile], and the state it leaves. *)
Definition amoxicillinExtracted : value * State :=
  (VObj [ ("patientName", VStr "John Smith");
          ("date", VStr "2024-03-05");
          ("doctorName", VStr "Adams");
          ("diagnosis", empty);
          ("prescription",
           VArr [ VObj [ ("medicineName", VStr "Amoxicillin");
                         ("dosage", VStr "500mg");
                         ("duration", VStr "7 days");
                         ("tablets", empty) ] ] []);
          ("notes", empty);
          ("recordType", VStr "prescription");
          ("summary", VStr "Amoxicillin for John Smith.") ],
   {| vectorStore := [];
      calls := [ ReadFileSync "uploads/document-3.pdf";
                 PdfParse "%PDF-1.4";
                 ChatCompletionsCreate (extractionRequest amoxicillinText);
                 ChatCompletionsCreate (summaryRequest amoxicillinText) ] |}).

(** A world whose model answers every request but the extraction
    request with [Prescription]. *)
Definition capitalWorld : World :=
  scripted (Ok None) (Ok (Some "Prescription")) (Ok "Patient: Jane Doe").

(** A medication whose dosage is a number. *)
Definition numericDosage : value :=
  VObj [ ("medicineName", VStr "Amoxicillin"); ("dosage", VNum 500 0);
         ("duration", VStr "7 days") ].

(** A world whose embedding service is down. *)
Definition embeddingDownWorld : World :=
  {| chat_completions_create := fun _ _ => Ok (Some "OK");
     fs_readFileSync := fun _ _ => Ok "%PDF-1.4";
     pdf_parse := fun _ _ => Ok "Patient: Jane Doe";
     tesseract_recognize := fun _ _ _ => Ok "Patient: Jane Doe";
     date_toISOString := fun _ => "2026-11-02T09:58:00.000Z";
     embeddings_embedQuery :=
       fun _ _ => Throw (Error "503 Service Unavailable") |}.

Definition janeDoeWorld : World :=
  scripted (Ok (Some janeDoe)) (Ok (Some "Visit of Jane Doe.")) (Ok "Patient: Jane Doe").

End Examples.

(* ================================================================== *)
(** * The rest of the processor, and the routes that call it *)
(* ================================================================== *)

Module Facade.
Import JS Runtime AIProcessor.
Local Open Scope string_scope.

(** The lower-case form of a code unit below 256: the letters [A]-[Z],
    and the Latin-1 capitals but the multiplication sign. *)
Definition lowerCase (c : ascii) : ascii :=
  let n := nat_of_ascii c in
  if (Nat.leb 65 n && Nat.leb n 90)%bool then ascii_of_nat (n + 32)
  else if (Nat.leb 192 n && Nat.leb n 222 && negb (Nat.eqb n 215))%bool
       then ascii_of_nat (n + 32)
       else c.

(** [s.toLowerCase()] *)
Fixpoint toLowerCase (s : string) : string :=
  match s with
  | EmptyString => EmptyString
  | String c s' => String (lowerCase c) (toLowerCase s')
  end.

(** The labels the classification prompt lists. *)
Definition categories : list string :=
  [ "prescription"; "lab_result"; "xray"; "mri"; "other" ].

Definition classificationPrompt (text : string) : string :=
  String.concat nl
    [ EmptyString;
      "Classify this medical document as one of these categories: prescription, lab_result, xray, mri, other.";
      "Return ONLY the category name, nothing else.";
      EmptyString;
      "Document text:";
      text;
      "Category:";
      EmptyString ].

Definition classificationRequest (text : string) : ChatRequest :=
  {| model := "gpt-3.5-turbo";
     messages := [ {| role := "user"; content := classificationPrompt text |} ];
     temperature := Some (3, -1)%Z;
     max_tokens := 50 |}.

(** The class with its static field [instance], empty until the first
    [getInstance], and the calls made so far. *)
Record Class := {
  instance : option (list IndexedDocument);
  made : list call
}.

Section Methods.
Variable w : World.

(** Lines 64-88. *)
Definition classifyDocumentType (text : string) : M string :=
  response <- chat w (classificationRequest text) ;;
  let result := content_or response "other" in
  ret (toLowerCase result).

(** [new AIProcessor()], lines 30-35, after the calls [log]: the
    connection test is started and not awaited. *)
Definition construct (log : list call) : State :=
  snd (testOpenAIConnection w {| vectorStore := []; calls := log |}).

(** Lines 56-61. *)
Definition getInstance (c : Class) : Class :=
  match instance c with
  | Some _ => c
  | None =>
      let s := construct (made c) in
      {| instance := Some (vectorStore s); made := calls s |}
  end.

End Methods.

(** The number of chat completions in a list of calls. *)
Fixpoint completions (l : list call) : nat :=
  match l with
  | [] => 0
  | ChatCompletionsCreate _ :: l' => S (completions l')
  | _ :: l' => completions l'
  end.

(** No back quote. *)
Fixpoint noBackquote (s : string) : bool :=
  match s with
  | EmptyString => true
  | String c s' => negb (Ascii.eqb c "`") && noBackquote s'
  end.

End Facade.

Module Routes.
Import JS Runtime AIProcessor.
Local Open Scope string_scope.

(** [typeof v === 'string'] *)
Definition typeof_string (v : value) : bool :=
  match v with
  | VStr _ => true
  | _ => false
  end.

(** The medication filter of [routes/records.ts], lines 56-62, 171-177
    and 202-208. *)
Definition isValidMedication (med : value) : bool :=
  truthy med
  && typeof_object med
  && typeof_string (own med "medicineName")
  && typeof_string (own med "dosage")
  && typeof_string (own med "duration").

(** [req.file]: the fields the processor reads, and the name the file
    was stored under. *)
Record Upload := {
  file : File;
  filename : string
}.

(** Lines 167-179. *)
Definition ensureValidPrescription (extractedData : value) : result value :=
  let? prescription := get_prop extractedData "prescription" in
  if truthy prescription
  then if negb (isArray prescription)
       then set_prop extractedData "prescription" (VArr [] [])
       else set_prop extractedData "prescription"
              (VArr (filter isValidMedication (elements prescription)) [])
  else Ok extractedData.

Definition index_key (i : nat) : string := NilZero.string_of_uint (Nat.to_uint i).

Fixpoint indexed (i : nat) (l : list value) : list (string * value) :=
  match l with
  | [] => []
  | v :: l' => (index_key i, v) :: indexed (S i) l'
  end.

Fixpoint characters (s : string) : list value :=
  match s with
  | EmptyString => []
  | String c s' => VStr (String c EmptyString) :: characters s'
  end.

(** The own enumerable properties [{...v}] copies. *)
Definition ownEntries (v : value) : list (string * value) :=
  match v with
  | VObj ps => ps
  | VArr l ps => (indexed 0 l ++ ps)%list
  | VStr s => indexed 0 (characters s)
  | _ => []
  end.

(** The manual defaults of lines 154-158. *)
Definition manualDefaults (userId : value) (iso : string) : value :=
  VObj [ ("userId", userId); ("recordType", str "other");
         ("date", str (today iso)) ].

Section Handlers.
Variable w : World.

(** [recordData] as the creation handler has it at line 193, for the
    authenticated user [userId] and the uploaded file, if any. *)
Definition recordDataAfterAI (userId : value) (upload : option Upload) : M value :=
  iso <- read_clock (date_toISOString w) ;;
  let recordData := manualDefaults userId iso in
  match upload with
  | None => ret recordData
  | Some u =>
      try_catch
        (extractedData <- processDocument w (file u) ;;
         extractedData <- lift (ensureValidPrescription extractedData) ;;
         ret (VObj (update "attachments"
                      (VArr [ str ("/uploads/" ++ filename u) ] [])
                      (update "userId" userId (ownEntries extractedData)))))
        (fun error => ret recordData)
  end.

End Handlers.

End Routes.

Module RouteExamples.
Import JS Runtime AIProcessor Routes.
Local Open Scope string_scope.

(** An upload of [Examples.pdfFile]. *)
Definition pdfUpload : Upload :=
  {| file := Examples.pdfFile; filename := "file-1730541480000-42.pdf" |}.

(** The user the request was authenticated for. *)
Definition userId : value := VStr "665f1c2ab7e4a3d2c8f0a111".

End RouteExamples.

(* ================================================================== *)
(** * Properties *)
(* ================================================================== *)

Import JS Runtime AIProcessor.
Local Open Scope string_scope.

Arguments extractionRequest : simpl never.
Arguments summaryRequest : simpl never.
Arguments JSON.parse : simpl never.
Arguments cleanResult : simpl never.
Arguments normalizeMedications : simpl never.

(** ** Objects *)

Lemma lookup_update_same k v ps : lookup k (update k v ps) = v.
Proof.
  induction ps as [| [k' v'] ps IH]; cbn [update lookup].
  - now rewrite String.eqb_refl.
  - destruct (String.eqb k k') eqn:E; cbn [lookup];
      [now rewrite String.eqb_refl |].
    destruct (comesBefore k k' && negb (has_key k ps)); cbn [lookup].
    + now rewrite String.eqb_refl.
    + now rewrite E.
Qed.

Lemma lookup_update_other k k' v ps :
  String.eqb k' k = false -> lookup k' (update k v ps) = lookup k' ps.
Proof.
  intros Hne. induction ps as [| [k0 v0] ps IH]; cbn [update lookup].
  - now rewrite Hne.
  - destruct (String.eqb k k0) eqn:E; cbn [lookup].
    + apply String.eqb_eq in E. subst k0. now rewrite Hne.
    + destruct (comesBefore k k0 && negb (has_key k ps)); cbn [lookup].
      * now rewrite Hne.
      * now rewrite IH.
Qed.

Lemma or_cases a b : (truthy a = true /\ orElse a b = a) \/ (truthy a = false /\ orElse a b = b).
Proof. unfold orElse. destruct (truthy a); auto. Qed.

Lemma or_empty_not_empty a : truthy (orElse a empty) = true <-> orElse a empty <> empty.
Proof.
  unfold orElse. destruct (truthy a) eqn:E; split; intros H; try congruence.
  - intros ->. discriminate.
  - discriminate.
Qed.

(** ** Running [extractStructuredData] *)


(** The run of [extractStructuredData], call by call. *)
Lemma extractStructuredData_run w text s :
  extractStructuredData w text s =
  let s1 := logged s (ChatCompletionsCreate (extractionRequest text)) in
  match chat_completions_create w (calls s) (extractionRequest text) with
  | Throw e => (Throw e, s1)
  | Ok response =>
      match normalizedRecord (date_toISOString w (calls s1)) response with
      | Throw _ => (Throw parseFailure, s1)
      | Ok formattedData =>
          if hasMeaningfulData formattedData then
            let s2 := logged s1 (ChatCompletionsCreate (summaryRequest text)) in
            match chat_completions_create w (calls s1) (summaryRequest text) with
            | Throw _ => (Throw parseFailure, s2)
            | Ok summary =>
                match set_prop formattedData "summary"
                        (str (content_or summary EmptyString)) with
                | Ok record => (Ok record, s2)
                | Throw _ => (Throw parseFailure, s2)
                end
            end
          else (Ok formattedData, s1)
      end
  end.
Proof.
  unfold extractStructuredData, normalizedRecord, generateSummary, chat,
    try_catch, bind, external, lift, read_clock, ret, throw, logged, and_then.
  cbn [fst snd calls vectorStore].
  destruct (chat_completions_create w (calls s) (extractionRequest text))
    as [response | e]; [| reflexivity].
  destruct (JSON.parse (cleanResult (content_or response "{}")))
    as [parsed | e]; [| reflexivity].
  destruct (ensurePrescription parsed) as [parsed' | e]; [| reflexivity].
  cbn [calls].
  destruct (formatData _ parsed') as [fd | e]; [| reflexivity].
  destruct (hasMeaningfulData fd); [| reflexivity].
  cbn [calls].
  destruct (chat_completions_create w _ (summaryRequest text)) as [sm | e];
    [| reflexivity].
  destruct (set_prop fd "summary" _); reflexivity.
Qed.

Lemma skipn_length_app {A} (l l' : list A) : skipn (List.length l) (l ++ l')%list = l'.
Proof. induction l; simpl; auto. Qed.

Lemma trace_logged {A} (m : M A) s new :
  calls (snd (m s)) = (calls s ++ new)%list -> trace m s = new.
Proof. intros H. unfold trace. rewrite H. apply skipn_length_app. Qed.

(** ** Normalization of the parsed answer *)


Lemma isObjectLike_not_nullish v : isObjectLike v = true -> nullish v = false.
Proof. destruct v; simpl; congruence. Qed.

Lemma ensurePrescription_ok parsedData parsedData' :
  ensurePrescription parsedData = Ok parsedData' ->
  isObjectLike parsedData = true /\ isObjectLike parsedData' = true /\
  own parsedData' "prescription" = normalizedPrescription parsedData /\
  forall k, String.eqb k "prescription" = false ->
            own parsedData' k = own parsedData k.
Proof.
  unfold ensurePrescription, normalizedPrescription, get_prop, and_then.
  destruct parsedData; simpl; try discriminate;
    match goal with
    | |- context [isArray ?p] => destruct (isArray p)
    end; simpl; intros H; inversion H; subst; simpl;
    rewrite lookup_update_same; repeat split; auto;
    intros k Hk; now apply lookup_update_other.
Qed.

Lemma ensurePrescription_total parsedData :
  isObjectLike parsedData = true ->
  exists parsedData', ensurePrescription parsedData = Ok parsedData'.
Proof.
  unfold ensurePrescription, get_prop, and_then.
  destruct parsedData; simpl; try discriminate; intros _;
    match goal with
    | |- context [isArray ?p] => destruct (isArray p)
    end; simpl; eauto.
Qed.



Lemma formatData_objectLike iso parsedData :
  isObjectLike parsedData = true ->
  formatData iso parsedData = Ok (formattedOf iso parsedData).
Proof.
  intros H. apply isObjectLike_not_nullish in H.
  unfold formatData, get_prop. now rewrite H.
Qed.

Lemma normalizedRecord_ok iso content formattedData :
  normalizedRecord iso content = Ok formattedData ->
  exists parsedData parsedData',
    JSON.parse (cleanResult (content_or content "{}")) = Ok parsedData /\
    ensurePrescription parsedData = Ok parsedData' /\
    formattedData = formattedOf iso parsedData'.
Proof.
  unfold normalizedRecord, and_then.
  destruct (JSON.parse _) as [parsedData |]; [| discriminate].
  destruct (ensurePrescription parsedData) as [parsedData' |] eqn:E; [| discriminate].
  destruct (ensurePrescription_ok _ _ E) as (_ & Hobj & _).
  rewrite formatData_objectLike by assumption.
  intros H. inversion H. eauto.
Qed.

Lemma normalizedRecord_objectLike iso content parsedData :
  JSON.parse (cleanResult (content_or content "{}")) = Ok parsedData ->
  isObjectLike parsedData = true ->
  exists parsedData',
    ensurePrescription parsedData = Ok parsedData' /\
    normalizedRecord iso content = Ok (formattedOf iso parsedData').
Proof.
  intros Hparse Hobj.
  destruct (ensurePrescription_total _ Hobj) as [parsedData' E].
  exists parsedData'. split; [assumption |].
  unfold normalizedRecord, and_then. rewrite Hparse, E.
  apply formatData_objectLike.
  now destruct (ensurePrescription_ok _ _ E) as (_ & H & _).
Qed.

Lemma normalizedPrescription_array parsedData :
  exists meds, normalizedPrescription parsedData = VArr meds [].
Proof. unfold normalizedPrescription. destruct (isArray _); eauto. Qed.

Lemma set_summary_formatted iso parsedData summary :
  set_prop (formattedOf iso parsedData) "summary" summary =
  Ok (VObj [ ("patientName", orElse (own parsedData "patientName") empty);
             ("date", orElse (own parsedData "date") (str (today iso)));
             ("doctorName", orElse (own parsedData "doctorName") empty);
             ("diagnosis", orElse (own parsedData "diagnosis") empty);
             ("prescription", orElse (own parsedData "prescription") (VArr [] []));
             ("notes", orElse (own parsedData "notes") empty);
             ("recordType", orElse (own parsedData "recordType") (str "prescription"));
             ("summary", summary) ]).
Proof. reflexivity. Qed.

(** Every record [extractStructuredData] returns is the object literal
    of lines 171-179, with [summary] added or not. *)
Lemma extractStructuredData_returns w text s record :
  fst (extractStructuredData w text s) = Ok record ->
  let iso := date_toISOString w
               (calls (logged s (ChatCompletionsCreate (extractionRequest text)))) in
  exists parsedData',
    isObjectLike parsedData' = true /\
    (exists meds, own parsedData' "prescription" = VArr meds []) /\
    (record = formattedOf iso parsedData' \/
     exists summary,
       set_prop (formattedOf iso parsedData') "summary" (str summary) = Ok record).
Proof.
  rewrite extractStructuredData_run. cbv zeta.
  destruct (chat_completions_create w (calls s) _) as [content |]; [| discriminate].
  destruct (normalizedRecord _ content) as [fd |] eqn:E; [| discriminate].
  destruct (normalizedRecord_ok _ _ _ E) as (parsedData & parsedData' & _ & Hens & ->).
  destruct (ensurePrescription_ok _ _ Hens) as (_ & Hobj & Hp & _).
  intros H. exists parsedData'. split; [assumption |]. split.
  - rewrite Hp. apply normalizedPrescription_array.
  - destruct (hasMeaningfulData _).
    + destruct (chat_completions_create w _ (summaryRequest text)) as [sm |];
        [| discriminate].
      right. exists (content_or sm EmptyString).
      destruct (set_prop _ "summary" _); [| discriminate].
      simpl in H. now inversion H.
    + left. simpl in H. now inversion H.
Qed.

(** ** Running [processDocument] *)

Lemma medicalRecord_ok iso file text extractedData record :
  medicalRecord iso file text extractedData = Ok record ->
  exists meds,
    record =
    VObj [ ("patientName", orElse (own extractedData "patientName") empty);
           ("date", orElse (own extractedData "date") (str (today iso)));
           ("doctorName", orElse (own extractedData "doctorName") empty);
           ("diagnosis", orElse (own extractedData "diagnosis") empty);
           ("prescription", VArr meds []);
           ("notes", orElse (own extractedData "notes") empty);
           ("recordType", orElse (own extractedData "recordType") (str "prescription"));
           ("documentType", orElse (own extractedData "recordType") (str "prescription"));
           ("filePath", str (path file));
           ("originalText", str text);
           ("summary", orElse (own extractedData "summary") empty) ].
Proof.
  unfold medicalRecord, get_prop, and_then.
  destruct (nullish extractedData); [discriminate |].
  destruct (isArray _).
  - destruct (map_result _ _) as [meds |]; [| discriminate].
    intros H. inversion H. now exists meds.
  - intros H. inversion H. now exists [].
Qed.

Lemma processDocument_returns w file s record :
  fst (processDocument w file s) = Ok record ->
  exists text s1 extractedData s2,
    extractText w file s = (Ok text, s1) /\
    extractStructuredData w text s1 = (Ok extractedData, s2) /\
    medicalRecord (date_toISOString w (calls s2)) file text extractedData = Ok record.
Proof.
  unfold processDocument, try_catch, bind, lift, read_clock, throw.
  destruct (extractText w file s) as [[text | e] s1] eqn:E1; [| discriminate].
  destruct (extractStructuredData w text s1) as [[extractedData | e] s2] eqn:E2;
    [| discriminate].
  destruct (medicalRecord _ file text extractedData) as [r |] eqn:E;
    [| discriminate].
  simpl. intros H. inversion H. subst r.
  exists text, s1, extractedData, s2. auto.
Qed.


Lemma or_defined a b : b <> VUndefined -> orElse a b <> VUndefined.
Proof.
  intros Hb. destruct (or_cases a b) as [[Ht ->] | [_ ->]]; auto.
  intros ->. discriminate.
Qed.

Ltac each_key H :=
  simpl in H;
  repeat (destruct H as [H | H]; [subst |]); try contradiction.

(** The end-to-end scenario: a PDF whose text names a patient, a
    doctor and a medication. *)
Example processDocument_amoxicillin :
  processDocument Examples.amoxicillinWorld Examples.pdfFile Examples.fresh =
  (Ok (VObj [ ("patientName", VStr "John Smith");
              ("date", VStr "2024-03-05");
              ("doctorName", VStr "Adams");
              ("diagnosis", empty);
              ("prescription",
               VArr [ VObj [ ("medicineName", VStr "Amoxicillin");
                             ("dosage", VStr "500mg");
                             ("duration", VStr "7 days");
                             ("tablets", empty) ] ] []);
              ("notes", empty);
              ("recordType", VStr "prescription");
              ("documentType", VStr "prescription");
              ("filePath", VStr "uploads/document-3.pdf");
              ("originalText", VStr Examples.amoxicillinText);
              ("summary", VStr "Amoxicillin for John Smith.") ]),
   {| vectorStore := [];
      calls := [ ReadFileSync "uploads/document-3.pdf";
                 PdfParse "%PDF-1.4";
                 ChatCompletionsCreate (extractionRequest Examples.amoxicillinText);
                 ChatCompletionsCreate (summaryRequest Examples.amoxicillinText) ] |}).
Proof. vm_compute. reflexivity. Qed.

(** ** C1 *)

(** C1.  Every record [extractStructuredData] returns has the seven
    top-level keys [patientName], [date], [doctorName], [diagnosis],
    [prescription], [notes] and [recordType], each holding either a
    truthy value of the model or its declared default.  When the
    completion parses to a JSON object and the summary call answers, a
    record is returned, and every key the object leaves out or leaves
    falsy holds its default.  The record [processDocument] builds from
    it has those keys too, all defined. *)
Theorem C1_all_keys_present w text s :
  let iso := date_toISOString w
               (calls (logged s (ChatCompletionsCreate (extractionRequest text)))) in
  (forall record,
      fst (extractStructuredData w text s) = Ok record ->
      forall k, In k topLevelKeys ->
        In k (keys record) /\
        (own record k = defaultOf iso k \/ truthy (own record k) = true))
  /\
  (forall content props,
      chat_completions_create w (calls s) (extractionRequest text) = Ok content ->
      JSON.parse (cleanResult (content_or content "{}")) = Ok (VObj props) ->
      (forall h, exists answer,
          chat_completions_create w h (summaryRequest text) = Ok answer) ->
      exists record,
        fst (extractStructuredData w text s) = Ok record /\
        forall k, In k topLevelKeys ->
          truthy (lookup k props) = false -> own record k = defaultOf iso k)
  /\
  (forall file record,
      fst (processDocument w file s) = Ok record ->
      forall k, In k recordKeys ->
        In k (keys record) /\ own record k <> VUndefined).
Proof.
  cbv zeta. split; [| split].
  - intros record Hrun k Hk.
    destruct (extractStructuredData_returns _ _ _ _ Hrun)
      as (p & _ & [meds Hmeds] & Hrec).
    assert (Hshape : (In k (keys record) /\
                      own record k = own (formattedOf
                        (date_toISOString w (calls (logged s
                           (ChatCompletionsCreate (extractionRequest text))))) p) k)).
    { destruct Hrec as [-> | [sm Hset]].
      - split; [| reflexivity]. each_key Hk; simpl; auto 10.
      - rewrite set_summary_formatted in Hset. inversion Hset. subst record.
        split; each_key Hk; simpl; auto 10. }
    destruct Hshape as [Hin ->]. split; [assumption |].
    each_key Hk; simpl; try rewrite Hmeds;
      match goal with
      | |- orElse ?a ?b = _ \/ _ =>
          destruct (or_cases a b) as [[Ht ->] | [_ ->]]; auto
      end.
  - intros content props Hchat Hparse Hsummary.
    rewrite extractStructuredData_run. cbv zeta. rewrite Hchat.
    destruct (normalizedRecord_objectLike
                (date_toISOString w (calls (logged s
                   (ChatCompletionsCreate (extractionRequest text)))))
                content (VObj props) Hparse eq_refl) as (p & Hens & ->).
    destruct (ensurePrescription_ok _ _ Hens) as (_ & _ & Hp & Hother).
    assert (Hdefault : forall k, In k topLevelKeys ->
              truthy (lookup k props) = false ->
              own (formattedOf (date_toISOString w (calls (logged s
                     (ChatCompletionsCreate (extractionRequest text))))) p) k =
              defaultOf (date_toISOString w (calls (logged s
                     (ChatCompletionsCreate (extractionRequest text))))) k).
    { intros k Hk Hfalsy.
      each_key Hk; simpl;
        try (rewrite Hother by reflexivity; simpl; unfold orElse;
             now rewrite Hfalsy).
      rewrite Hp. unfold normalizedPrescription. simpl own.
      destruct (lookup "prescription" props); try discriminate; reflexivity. }
    destruct (hasMeaningfulData _).
    + destruct (Hsummary (calls (logged s
                  (ChatCompletionsCreate (extractionRequest text))))) as [sm ->].
      rewrite set_summary_formatted. eexists. split; [reflexivity |].
      intros k Hk Hfalsy. rewrite <- (Hdefault k Hk Hfalsy).
      each_key Hk; reflexivity.
    + eexists. split; [reflexivity |]. exact Hdefault.
  - intros file record Hrun k Hk.
    destruct (processDocument_returns _ _ _ _ Hrun)
      as (text' & s1 & extracted & s2 & _ & _ & Hrec).
    destruct (medicalRecord_ok _ _ _ _ _ Hrec) as [meds ->].
    unfold recordKeys in Hk.
    split; each_key Hk; simpl; auto 15;
      try (apply or_defined); discriminate.
Qed.

Lemma C1_all_keys_present_witness :
  exists record,
    fst (extractStructuredData Examples.janeDoeWorld "Patient: Jane Doe" Examples.fresh)
    = Ok record /\
    forall k, In k topLevelKeys ->
      truthy (lookup k Examples.janeDoeProps) = false ->
      own record k = defaultOf "2026-11-02T09:58:00.000Z" k.
Proof.
  apply (proj1 (proj2 (C1_all_keys_present Examples.janeDoeWorld
                         "Patient: Jane Doe" Examples.fresh))
           (Some Examples.janeDoe) Examples.janeDoeProps).
  - reflexivity.
  - vm_compute. reflexivity.
  - intros h. eexists. reflexivity.
Defined.

(** ** C2 and C6: medications *)


Lemma or_or_empty a : orElse (orElse a empty) empty = orElse a empty.
Proof. unfold orElse. destruct (truthy a) eqn:E; rewrite ?E; reflexivity. Qed.





Lemma in_normalizeMedications m prescription :
  In m (normalizeMedications prescription) <->
  hasContent m = true /\
  exists med, In med prescription /\ isMedicationObject med = true /\
              m = canonicalMedication med.
Proof.
  unfold normalizeMedications. rewrite filter_In, in_map_iff. split.
  - intros [(med & <- & Hmed) H]. apply filter_In in Hmed. split; eauto.
    exists med. tauto.
  - intros [H (med & Hin & Hobj & ->)]. split; [| assumption].
    exists med. split; [reflexivity |]. apply filter_In. auto.
Qed.



(** The medication with only [medicineName: "Aspirin"] is kept, with
    its three other fields empty; the one without any field and the
    entries that are not objects are dropped. *)
Example normalizeMedications_aspirin :
  normalizeMedications (elements (own Examples.aspirinAnswer "prescription")) =
  [ VObj [ ("medicineName", VStr "Aspirin"); ("dosage", empty);
           ("duration", empty); ("tablets", empty) ] ].
Proof. reflexivity. Qed.

Arguments orElse : simpl never.

Lemma get_opt_object ps k : get_opt (VObj ps) k = lookup k ps.
Proof. reflexivity. Qed.

Lemma canonicalMedication_idempotent med :
  canonicalMedication (canonicalMedication med) = canonicalMedication med.
Proof.
  unfold canonicalMedication. rewrite !get_opt_object. simpl.
  now rewrite !or_or_empty.
Qed.

Lemma copyMedication_canonical med :
  copyMedication (canonicalMedication med) = Ok (canonicalMedication med).
Proof.
  unfold copyMedication, canonicalMedication, get_prop, and_then. simpl.
  now rewrite !or_or_empty.
Qed.

(** A medication as normalization leaves it. *)
Lemma normalized_medication m prescription :
  In m (normalizeMedications prescription) ->
  isMedicationObject m = true /\ canonicalMedication m = m /\
  hasContent m = true /\ copyMedication m = Ok m.
Proof.
  intros H. apply in_normalizeMedications in H.
  destruct H as (Hcontent & med & _ & _ & ->).
  repeat split; auto using canonicalMedication_idempotent, copyMedication_canonical.
Qed.

Lemma normalizeMedications_fixed meds :
  Forall (fun m => isMedicationObject m = true /\ canonicalMedication m = m /\
                   hasContent m = true /\ copyMedication m = Ok m) meds ->
  normalizeMedications meds = meds /\ map_result copyMedication meds = Ok meds.
Proof.
  unfold normalizeMedications.
  induction 1 as [| m meds (Hobj & Hcanon & Hcontent & Hcopy) _ [IH1 IH2]].
  - split; reflexivity.
  - simpl. rewrite Hobj. simpl. rewrite Hcanon, Hcontent, IH1.
    unfold and_then. rewrite Hcopy, IH2. split; reflexivity.
Qed.

(** C6.  Normalizing a medication sequence twice gives what normalizing
    it once gives; the copy [processDocument] makes of a normalized
    sequence is that sequence again. *)
Theorem C6_normalization_idempotent (prescription : list value) :
  normalizeMedications (normalizeMedications prescription) =
  normalizeMedications prescription
  /\
  map_result copyMedication (normalizeMedications prescription) =
  Ok (normalizeMedications prescription).
Proof.
  apply normalizeMedications_fixed, Forall_forall.
  intros m Hm. exact (normalized_medication m prescription Hm).
Qed.

(** ** C3: when the summary is generated *)

Lemma requests_differ text text' :
  ChatCompletionsCreate (extractionRequest text) <>
  ChatCompletionsCreate (summaryRequest text').
Proof. unfold extractionRequest, summaryRequest. intros H. discriminate H. Qed.

Lemma hasMeaningfulData_formatted iso parsedData meds :
  own parsedData "prescription" = VArr meds [] ->
  let formattedData := formattedOf iso parsedData in
  hasMeaningfulData formattedData = true <->
  own formattedData "patientName" <> empty \/
  own formattedData "diagnosis" <> empty \/
  elements (own formattedData "prescription") <> [].
Proof.
  intros Hmeds. unfold hasMeaningfulData, formattedOf. simpl own.
  rewrite Hmeds, !orb_true_iff, !or_empty_not_empty.
  change (orElse (VArr meds []) (VArr [] [])) with (VArr meds []).
  change (orElse (VArr meds []) (VArr [] [])) with (VArr meds []).
  simpl. destruct meds; simpl; intuition congruence.
Qed.

(** C3.  Once the completion has produced the normalized record of
    line 179, the summary request is sent during the call exactly when
    that record has a non-empty [patientName], a non-empty [diagnosis]
    or a non-empty [prescription] array.  When it is sent and answered,
    the returned record is the normalized one with [summary] set to the
    generator's result.  When it is not sent, the only call made is the
    extraction request, the normalized record is returned without a
    [summary] property, and [processDocument] gives it the empty
    string. *)
Theorem C3_summary_condition w text s content formattedData :
  let s1 := logged s (ChatCompletionsCreate (extractionRequest text)) in
  chat_completions_create w (calls s) (extractionRequest text) = Ok content ->
  normalizedRecord (date_toISOString w (calls s1)) content = Ok formattedData ->
  (In (ChatCompletionsCreate (summaryRequest text))
      (trace (extractStructuredData w text) s) <->
   hasMeaningfulData formattedData = true)
  /\
  (hasMeaningfulData formattedData = true <->
   own formattedData "patientName" <> empty \/
   own formattedData "diagnosis" <> empty \/
   elements (own formattedData "prescription") <> [])
  /\
  (hasMeaningfulData formattedData = true ->
   forall answer,
     chat_completions_create w (calls s1) (summaryRequest text) = Ok answer ->
     exists record,
       fst (extractStructuredData w text s) = Ok record /\
       fst (generateSummary w text s1) = Ok (content_or answer EmptyString) /\
       own record "summary" = str (content_or answer EmptyString) /\
       forall k, In k topLevelKeys -> own record k = own formattedData k)
  /\
  (hasMeaningfulData formattedData = false ->
   extractStructuredData w text s = (Ok formattedData, s1) /\
   trace (extractStructuredData w text) s =
     [ ChatCompletionsCreate (extractionRequest text) ] /\
   own formattedData "summary" = VUndefined /\
   forall iso file text' record,
     medicalRecord iso file text' formattedData = Ok record ->
     own record "summary" = empty).
Proof.
  cbv zeta. intros Hchat Hnorm.
  destruct (normalizedRecord_ok _ _ _ Hnorm) as (parsed & parsed' & _ & Hens & Hfd).
  destruct (ensurePrescription_ok _ _ Hens) as (_ & _ & Hp & _).
  destruct (normalizedPrescription_array parsed) as [meds Hmeds].
  rewrite Hmeds in Hp.
  pose proof (extractStructuredData_run w text s) as Hrun. cbv zeta in Hrun.
  rewrite Hchat, Hnorm in Hrun.
  split; [| split; [| split]].
  - destruct (hasMeaningfulData formattedData).
    + assert (Hcalls : calls (snd (extractStructuredData w text s)) =
                (calls s ++ [ ChatCompletionsCreate (extractionRequest text);
                              ChatCompletionsCreate (summaryRequest text) ])%list).
      { rewrite Hrun.
        destruct (chat_completions_create w _ (summaryRequest text));
          [destruct (set_prop _ _ _) |]; simpl; now rewrite <- app_assoc. }
      rewrite (trace_logged _ _ _ Hcalls). simpl. tauto.
    + assert (Hcalls : calls (snd (extractStructuredData w text s)) =
                (calls s ++ [ ChatCompletionsCreate (extractionRequest text) ])%list).
      { now rewrite Hrun. }
      rewrite (trace_logged _ _ _ Hcalls). simpl. split; [| discriminate].
      intros [H | []]. now apply requests_differ in H.
  - subst formattedData. exact (hasMeaningfulData_formatted _ _ _ Hp).
  - intros Hcond answer Hanswer. rewrite Hcond, Hanswer in Hrun.
    subst formattedData. rewrite set_summary_formatted in Hrun.
    rewrite Hrun. eexists. split; [reflexivity |]. split.
    + unfold generateSummary, chat, bind, external, ret.
      now rewrite Hanswer.
    + split; [reflexivity |]. intros k Hk. each_key Hk; reflexivity.
  - intros Hcond. rewrite Hcond in Hrun. split; [exact Hrun |]. split.
    + apply trace_logged. now rewrite Hrun.
    + subst formattedData. split; [reflexivity |].
      intros iso file text' record Hrec.
      destruct (medicalRecord_ok _ _ _ _ _ Hrec) as [meds' ->]. reflexivity.
Qed.

Lemma C3_summary_condition_witness :
  In (ChatCompletionsCreate (summaryRequest "Patient: Jane Doe"))
     (trace (extractStructuredData Examples.janeDoeWorld "Patient: Jane Doe")
            Examples.fresh) <->
  hasMeaningfulData Examples.janeDoeFormatted = true.
Proof.
  apply (C3_summary_condition Examples.janeDoeWorld "Patient: Jane Doe" Examples.fresh
           (Some Examples.janeDoe) Examples.janeDoeFormatted).
  - reflexivity.
  - vm_compute. reflexivity.
Defined.

(** ** C4 and C7: text extraction *)

Lemma rev_append_empty s acc :
  JS.rev_append s acc = EmptyString <-> s = EmptyString /\ acc = EmptyString.
Proof.
  revert acc. induction s as [| c s IH]; intros acc; simpl.
  - tauto.
  - rewrite IH. split; [intros [_ H]; discriminate | intros [H _]; discriminate].
Qed.

Lemma allSpace_rev_append s acc :
  allSpace (JS.rev_append s acc) = allSpace s && allSpace acc.
Proof.
  revert acc. induction s as [| c s IH]; intros acc; simpl; [reflexivity |].
  rewrite IH. simpl.
  destruct (is_space c), (allSpace s), (allSpace acc); reflexivity.
Qed.

Lemma trimStart_empty s : trimStart s = EmptyString <-> allSpace s = true.
Proof.
  induction s as [| c s IH]; simpl; [tauto |].
  destruct (is_space c); simpl; [exact IH |]. split; discriminate.
Qed.

Lemma allSpace_trimStart s : allSpace (trimStart s) = allSpace s.
Proof.
  induction s as [| c s IH]; simpl; [reflexivity |].
  destruct (is_space c) eqn:E; simpl; [exact IH | now rewrite E].
Qed.

(** [trim] leaves nothing exactly of the strings made of white space. *)
Lemma trim_empty s : trim s = EmptyString <-> allSpace s = true.
Proof.
  unfold trim, trimEnd, reverse.
  rewrite rev_append_empty, trimStart_empty, allSpace_rev_append, andb_true_r,
    allSpace_trimStart.
  tauto.
Qed.

Lemma noText_spec text : noText text = true <-> allSpace text = true.
Proof.
  rewrite <- trim_empty. unfold noText.
  destruct text as [| c text]; [split; reflexivity |].
  simpl is_empty. rewrite orb_false_l, Nat.eqb_eq.
  destruct (trim (String c text)); simpl; split; congruence.
Qed.

(** The run of [extractText], call by call. *)
Lemma extractText_run w file s :
  extractText w file s =
  if String.eqb (mimetype file) "application/pdf" then
    let s1 := logged s (ReadFileSync (path file)) in
    match fs_readFileSync w (calls s) (path file) with
    | Throw e => (Throw (extractionFailure (message e)), s1)
    | Ok fileBuffer =>
        let s2 := logged s1 (PdfParse fileBuffer) in
        match pdf_parse w (calls s1) fileBuffer with
        | Throw e => (Throw (extractionFailure (message e)), s2)
        | Ok text => checked text s2
        end
    end
  else
    let s1 := logged s (TesseractRecognize (path file) "eng") in
    match tesseract_recognize w (calls s) (path file) "eng" with
    | Throw e => (Throw (extractionFailure (message e)), s1)
    | Ok text => checked text s1
    end.
Proof.
  unfold extractText, checked, try_catch, bind, external, throw, ret, logged,
    extractionFailure, noTextMessage.
  destruct (String.eqb (mimetype file) "application/pdf"); cbv zeta.
  - destruct (fs_readFileSync w (calls s) (path file)) as [buffer | e];
      [| reflexivity].
    cbn [calls vectorStore].
    destruct (pdf_parse w _ buffer) as [text | e]; [| reflexivity].
    destruct (noText text); reflexivity.
  - destruct (tesseract_recognize w (calls s) (path file) "eng") as [text | e];
      [| reflexivity].
    destruct (noText text); reflexivity.
Qed.

Lemma checked_ok text s text' :
  fst (checked text s) = Ok text' -> text' = text /\ allSpace text = false.
Proof.
  unfold checked. destruct (noText text) eqn:E; simpl; [discriminate |].
  intros H. inversion H. subst text'. split; [reflexivity |].
  destruct (allSpace text) eqn:Hs; [| reflexivity].
  apply noText_spec in Hs. congruence.
Qed.

Lemma checked_blank text s :
  allSpace text = true ->
  checked text s = (Throw (extractionFailure noTextMessage), s).
Proof. intros H. apply noText_spec in H. unfold checked. now rewrite H. Qed.

Lemma checked_text text s :
  allSpace text = false -> checked text s = (Ok text, s).
Proof.
  intros H. unfold checked. destruct (noText text) eqn:E; [| reflexivity].
  apply noText_spec in E. congruence.
Qed.

Lemma checked_throw text s e :
  fst (checked text s) = Throw e -> e = extractionFailure noTextMessage.
Proof.
  unfold checked. destruct (noText text); simpl; [| discriminate].
  intros H. now inversion H.
Qed.

(** C7.  [extractText] never returns a text that is empty or made of
    white space only, and every error it throws is the extraction
    failure of line 267.  It throws it, with the cause's message, when
    reading the file, parsing the PDF or recognizing the image fails,
    and with the no-text message when the text found is empty or white
    space only. *)
Theorem C7_extraction_fails_or_has_text w file s :
  (forall text, fst (extractText w file s) = Ok text ->
                allSpace text = false /\ trim text <> EmptyString)
  /\
  (forall e, fst (extractText w file s) = Throw e ->
             exists reason, e = extractionFailure reason)
  /\
  (mimetype file = "application/pdf" ->
   (forall e, fs_readFileSync w (calls s) (path file) = Throw e ->
              fst (extractText w file s) = Throw (extractionFailure (message e)))
   /\
   (forall fileBuffer,
       fs_readFileSync w (calls s) (path file) = Ok fileBuffer ->
       let s1 := logged s (ReadFileSync (path file)) in
       (forall e, pdf_parse w (calls s1) fileBuffer = Throw e ->
                  fst (extractText w file s) = Throw (extractionFailure (message e)))
       /\
       (forall text, pdf_parse w (calls s1) fileBuffer = Ok text ->
                     allSpace text = true ->
                     fst (extractText w file s) =
                     Throw (extractionFailure noTextMessage))))
  /\
  (mimetype file <> "application/pdf" ->
   (forall e, tesseract_recognize w (calls s) (path file) "eng" = Throw e ->
              fst (extractText w file s) = Throw (extractionFailure (message e)))
   /\
   (forall text, tesseract_recognize w (calls s) (path file) "eng" = Ok text ->
                 allSpace text = true ->
                 fst (extractText w file s) =
                 Throw (extractionFailure noTextMessage))).
Proof.
  rewrite extractText_run. cbv zeta.
  split; [| split; [| split]].
  - intros text.
    destruct (String.eqb _ _);
      [destruct (fs_readFileSync _ _ _); [| discriminate];
       destruct (pdf_parse _ _ _); [| discriminate]
      | destruct (tesseract_recognize _ _ _ _); [| discriminate]];
      intros H; apply checked_ok in H; destruct H as [-> H];
      (split; [assumption |]); rewrite trim_empty; congruence.
  - intros e.
    destruct (String.eqb _ _);
      [destruct (fs_readFileSync _ _ _);
       [destruct (pdf_parse _ _ _) |]
      | destruct (tesseract_recognize _ _ _ _)];
      simpl; intros H;
      try (apply checked_throw in H; subst e; eauto);
      inversion H; eauto.
  - intros Hpdf. apply String.eqb_eq in Hpdf. rewrite Hpdf. split.
    + intros e ->. reflexivity.
    + intros fileBuffer ->. split.
      * intros e ->. reflexivity.
      * intros text -> Hblank. now rewrite checked_blank.
  - intros Hother. apply String.eqb_neq in Hother. rewrite Hother. split.
    + intros e ->. reflexivity.
    + intros text -> Hblank. now rewrite checked_blank.
Qed.

Lemma C7_extraction_fails_or_has_text_witness :
  fst (extractText Examples.corruptWorld Examples.scanFile Examples.fresh) =
  Throw (extractionFailure "Error attempting to read image.")
  /\
  fst (extractText Examples.blankWorld Examples.pdfFile Examples.fresh) =
  Throw (extractionFailure noTextMessage).
Proof.
  split.
  - apply (proj1 (proj2 (proj2 (proj2 (C7_extraction_fails_or_has_text
             Examples.corruptWorld Examples.scanFile Examples.fresh)))
             ltac:(discriminate))
             (Error "Error attempting to read image.")).
    reflexivity.
  - apply (proj2 (proj1 (proj2 (proj2 (C7_extraction_fails_or_has_text
             Examples.blankWorld Examples.pdfFile Examples.fresh)))
             eq_refl) "%PDF-1.4" eq_refl) with (text := "  " ++ nl ++ " ").
    + reflexivity.
    + reflexivity.
Defined.

(** C4, as the code has it.  [extractText] does not validate the MIME
    type: a file whose declared type is not [application/pdf], image or
    not, is handed to OCR, and that is the only call made.  A text with
    more than white space that OCR finds is returned, and the call
    fails only as OCR fails or finds no text, with the extraction
    failure of line 267. *)
Theorem C4_other_types_go_to_ocr w file s :
  mimetype file <> "application/pdf" ->
  trace (extractText w file) s = [ TesseractRecognize (path file) "eng" ]
  /\
  (forall text, tesseract_recognize w (calls s) (path file) "eng" = Ok text ->
                allSpace text = false ->
                fst (extractText w file s) = Ok text)
  /\
  (forall e, fst (extractText w file s) = Throw e ->
     (exists cause,
         tesseract_recognize w (calls s) (path file) "eng" = Throw cause /\
         e = extractionFailure (message cause))
     \/
     (exists text,
         tesseract_recognize w (calls s) (path file) "eng" = Ok text /\
         allSpace text = true /\ e = extractionFailure noTextMessage)).
Proof.
  intros Hother. apply String.eqb_neq in Hother.
  rewrite extractText_run, Hother. cbv zeta. split; [| split].
  - apply trace_logged. rewrite extractText_run, Hother. cbv zeta.
    destruct (tesseract_recognize _ _ _ _) as [text |]; [| reflexivity].
    unfold checked. destruct (noText text); reflexivity.
  - intros text Hocr Htext. rewrite Hocr. now rewrite checked_text.
  - intros e.
    destruct (tesseract_recognize _ _ _ _) as [text | cause]; simpl.
    + intros H. right. exists text. split; [reflexivity |].
      split; [| exact (checked_throw _ _ _ H)].
      unfold checked in H. destruct (noText text) eqn:E; [| discriminate].
      now apply noText_spec.
    + intros H. inversion H. left. now exists cause.
Qed.

Lemma C4_other_types_go_to_ocr_witness :
  trace (extractText Examples.janeDoeWorld Examples.scanFile) Examples.fresh =
  [ TesseractRecognize "uploads/document-2.png" "eng" ]
  /\
  fst (extractText Examples.janeDoeWorld Examples.scanFile Examples.fresh) =
  Ok "Patient: Jane Doe".
Proof.
  pose proof (C4_other_types_go_to_ocr Examples.janeDoeWorld Examples.scanFile
                Examples.fresh ltac:(discriminate)) as (Htrace & Htext & _).
  split; [exact Htrace |].
  apply Htext; reflexivity.
Defined.

(** A file declared [text/plain], which the upload filter refuses, is
    not refused by [extractText]: it goes to OCR and the text OCR finds
    is returned. *)
Lemma C4_counterexample :
  mimetype Examples.textFile <> "application/pdf" /\
  prefix "image/" (mimetype Examples.textFile) = false /\
  fileFilter Examples.textFile = false /\
  fst (extractText Examples.janeDoeWorld Examples.textFile Examples.fresh) =
  Ok "Patient: Jane Doe" /\
  trace (extractText Examples.janeDoeWorld Examples.textFile) Examples.fresh =
  [ TesseractRecognize "uploads/document-1.txt" "eng" ].
Proof.
  split; [discriminate |]. repeat split.
Qed.

(** ** C5: defaults *)

Lemma lookup_absent k ps : has_key k ps = false -> lookup k ps = VUndefined.
Proof.
  induction ps as [| [k' v] ps IH]; simpl; [reflexivity |].
  destruct (String.eqb k k'); simpl; [discriminate | exact IH].
Qed.

(** C5, as the code has it.  When the completion parses to a JSON
    object, a top-level key absent from it is given, in the returned
    record, the empty string for [patientName], [doctorName],
    [diagnosis] and [notes], the empty array for [prescription], the
    string [prescription] for [recordType], and the date of the clock,
    the part of its ISO form before the [T], for [date]. *)
Theorem C5_absent_fields_defaulted w text s content props record :
  let iso := date_toISOString w
               (calls (logged s (ChatCompletionsCreate (extractionRequest text)))) in
  chat_completions_create w (calls s) (extractionRequest text) = Ok content ->
  JSON.parse (cleanResult (content_or content "{}")) = Ok (VObj props) ->
  fst (extractStructuredData w text s) = Ok record ->
  (has_key "patientName" props = false -> own record "patientName" = empty) /\
  (has_key "date" props = false -> own record "date" = str (today iso)) /\
  (has_key "doctorName" props = false -> own record "doctorName" = empty) /\
  (has_key "diagnosis" props = false -> own record "diagnosis" = empty) /\
  (has_key "prescription" props = false -> own record "prescription" = VArr [] []) /\
  (has_key "notes" props = false -> own record "notes" = empty) /\
  (has_key "recordType" props = false ->
   own record "recordType" = str "prescription").
Proof.
  cbv zeta. intros Hchat Hparse.
  rewrite extractStructuredData_run. cbv zeta. rewrite Hchat.
  destruct (normalizedRecord_objectLike
              (date_toISOString w (calls (logged s
                 (ChatCompletionsCreate (extractionRequest text)))))
              content (VObj props) Hparse eq_refl) as (p & Hens & ->).
  destruct (ensurePrescription_ok _ _ Hens) as (_ & _ & Hp & Hother).
  intros Hrun.
  assert (Hrec : forall k, In k topLevelKeys ->
            own record k =
            own (formattedOf (date_toISOString w (calls (logged s
                   (ChatCompletionsCreate (extractionRequest text))))) p) k).
  { destruct (hasMeaningfulData _).
    - destruct (chat_completions_create w _ (summaryRequest text));
        [| discriminate].
      rewrite set_summary_formatted in Hrun. simpl in Hrun. inversion Hrun.
      intros k Hk. each_key Hk; reflexivity.
    - simpl in Hrun. inversion Hrun. reflexivity. }
  repeat split; intros Habsent; apply lookup_absent in Habsent;
    (rewrite Hrec by (simpl; auto 10)); simpl own;
    try (rewrite Hother by reflexivity; simpl own; now rewrite Habsent).
  rewrite Hp. unfold normalizedPrescription. simpl own. now rewrite Habsent.
Qed.

Lemma C5_absent_fields_defaulted_witness :
  (has_key "patientName" Examples.janeDoeProps = false ->
   own Examples.janeDoeRecord "patientName" = empty) /\
  (has_key "date" Examples.janeDoeProps = false ->
   own Examples.janeDoeRecord "date" = str (today "2026-11-02T09:58:00.000Z")) /\
  (has_key "doctorName" Examples.janeDoeProps = false ->
   own Examples.janeDoeRecord "doctorName" = empty) /\
  (has_key "diagnosis" Examples.janeDoeProps = false ->
   own Examples.janeDoeRecord "diagnosis" = empty) /\
  (has_key "prescription" Examples.janeDoeProps = false ->
   own Examples.janeDoeRecord "prescription" = VArr [] []) /\
  (has_key "notes" Examples.janeDoeProps = false ->
   own Examples.janeDoeRecord "notes" = empty) /\
  (has_key "recordType" Examples.janeDoeProps = false ->
   own Examples.janeDoeRecord "recordType" = str "prescription").
Proof.
  apply (C5_absent_fields_defaulted
           Examples.janeDoeWorld
           "Patient: Jane Doe" Examples.fresh (Some Examples.janeDoe)
           Examples.janeDoeProps Examples.janeDoeRecord).
  - reflexivity.
  - vm_compute. reflexivity.
  - vm_compute. reflexivity.
Defined.

(** The model leaves out [date] and [recordType]; the record returned
    has the date of the clock and the record type [prescription], not
    the empty string. *)
Lemma C5_counterexample :
  JSON.parse (cleanResult Examples.janeDoe) = Ok (VObj Examples.janeDoeProps) /\
  has_key "date" Examples.janeDoeProps = false /\
  has_key "recordType" Examples.janeDoeProps = false /\
  exists record,
    fst (extractStructuredData Examples.janeDoeWorld "Patient: Jane Doe"
           Examples.fresh) = Ok record /\
    own record "date" = VStr "2026-11-02" /\
    own record "date" <> empty /\
    own record "recordType" = VStr "prescription" /\
    own record "recordType" <> empty.
Proof.
  split; [vm_compute; reflexivity |]. split; [reflexivity |].
  split; [reflexivity |].
  eexists. split; [vm_compute; reflexivity |].
  repeat split; discriminate.
Qed.

(** ** C8: a failing summary call *)

Lemma processDocument_extraction_throws w file s text s1 e :
  extractText w file s = (Ok text, s1) ->
  fst (extractStructuredData w text s1) = Throw e ->
  fst (processDocument w file s) = Throw e.
Proof.
  intros Htext Hthrow.
  unfold processDocument, try_catch, bind, throw. rewrite Htext.
  destruct (extractStructuredData w text s1) as [[record | e'] s2];
    simpl in Hthrow; [discriminate |].
  now inversion Hthrow.
Qed.

(** C8, as the code has it.  Once the normalized record calls for a
    summary, a failure of the summary request is fatal:
    [extractStructuredData] throws and returns no record, and so does
    the [processDocument] that called it.  The summary is the empty
    string when the summary request is answered without content. *)
Theorem C8_summary_failure_is_fatal w text s content formattedData :
  let s1 := logged s (ChatCompletionsCreate (extractionRequest text)) in
  chat_completions_create w (calls s) (extractionRequest text) = Ok content ->
  normalizedRecord (date_toISOString w (calls s1)) content = Ok formattedData ->
  hasMeaningfulData formattedData = true ->
  (forall e,
      chat_completions_create w (calls s1) (summaryRequest text) = Throw e ->
      (exists e', fst (extractStructuredData w text s) = Throw e') /\
      (forall file s0,
          extractText w file s0 = (Ok text, s) ->
          exists e', fst (processDocument w file s0) = Throw e'))
  /\
  (chat_completions_create w (calls s1) (summaryRequest text) = Ok None ->
   exists record,
     fst (extractStructuredData w text s) = Ok record /\
     own record "summary" = empty).
Proof.
  cbv zeta. intros Hchat Hnorm Hcond.
  pose proof (extractStructuredData_run w text s) as Hrun. cbv zeta in Hrun.
  rewrite Hchat, Hnorm, Hcond in Hrun. split.
  - intros e Hfail. rewrite Hfail in Hrun.
    assert (Hthrow : fst (extractStructuredData w text s) = Throw parseFailure)
      by now rewrite Hrun.
    split; [now exists parseFailure |].
    intros file s0 Htext. exists parseFailure.
    exact (processDocument_extraction_throws _ _ _ _ _ _ Htext Hthrow).
  - intros Hnone. rewrite Hnone in Hrun.
    destruct (normalizedRecord_ok _ _ _ Hnorm) as (parsed & parsed' & _ & _ & ->).
    rewrite set_summary_formatted in Hrun. rewrite Hrun.
    eexists. split; reflexivity.
Qed.

Lemma C8_summary_failure_is_fatal_witness :
  (exists e', fst (extractStructuredData Examples.summaryDownWorld
                     "Patient: Jane Doe" Examples.fresh) = Throw e') /\
  (forall file s0,
      extractText Examples.summaryDownWorld file s0 =
      (Ok "Patient: Jane Doe", Examples.fresh) ->
      exists e', fst (processDocument Examples.summaryDownWorld file s0) = Throw e').
Proof.
  apply (proj1 (C8_summary_failure_is_fatal Examples.summaryDownWorld
                  "Patient: Jane Doe" Examples.fresh (Some Examples.janeDoe)
                  Examples.janeDoeFormatted eq_refl
                  ltac:(vm_compute; reflexivity) eq_refl)
           (Error "429 Too Many Requests")).
  reflexivity.
Defined.

(** The extraction request is answered with a patient's name and the
    summary request fails: no record comes back, neither from
    [extractStructuredData] nor from [processDocument]. *)
Lemma C8_counterexample :
  chat_completions_create Examples.summaryDownWorld
    [ ChatCompletionsCreate (extractionRequest "Patient: Jane Doe") ]
    (summaryRequest "Patient: Jane Doe") = Throw (Error "429 Too Many Requests") /\
  fst (extractStructuredData Examples.summaryDownWorld "Patient: Jane Doe"
         Examples.fresh) = Throw (Error "Failed to parse AI response") /\
  fst (processDocument Examples.summaryDownWorld Examples.pdfFile Examples.fresh) =
  Throw (Error "Failed to parse AI response") /\
  forall record,
    fst (extractStructuredData Examples.summaryDownWorld "Patient: Jane Doe"
           Examples.fresh) <> Ok record.
Proof.
  split; [reflexivity |].
  assert (H : fst (extractStructuredData Examples.summaryDownWorld
                     "Patient: Jane Doe" Examples.fresh) =
              Throw (Error "Failed to parse AI response"))
    by (vm_compute; reflexivity).
  split; [exact H |]. split; [vm_compute; reflexivity |].
  intros record. rewrite H. discriminate.
Qed.

(** ** C10: no content, and the parse error *)







(** ** C9: the vector store *)


Section KeepsStore.
Context {A B : Type}.

Lemma keepsStore_ret (a : A) : keepsStore (ret a).
Proof. intros s. reflexivity. Qed.

Lemma keepsStore_throw (e : exn) : keepsStore (@throw A e).
Proof. intros s. reflexivity. Qed.

Lemma keepsStore_lift (r : result A) : keepsStore (lift r).
Proof. intros s. reflexivity. Qed.

Lemma keepsStore_external (c : call) (answer : list call -> result A) :
  keepsStore (external c answer).
Proof. intros s. reflexivity. Qed.

Lemma keepsStore_bind (m : M A) (f : A -> M B) :
  keepsStore m -> (forall a, keepsStore (f a)) -> keepsStore (bind m f).
Proof.
  intros Hm Hf s. unfold bind. specialize (Hm s).
  destruct (m s) as [[a | e] s']; simpl in *; [| assumption].
  now rewrite Hf.
Qed.

Lemma keepsStore_try_catch (m : M A) (handler : exn -> M A) :
  keepsStore m -> (forall e, keepsStore (handler e)) ->
  keepsStore (try_catch m handler).
Proof.
  intros Hm Hh s. unfold try_catch. specialize (Hm s).
  destruct (m s) as [[a | e] s']; simpl in *; [assumption |].
  now rewrite Hh.
Qed.

End KeepsStore.

Lemma keepsStore_read_clock clock : keepsStore (read_clock clock).
Proof. intros s. reflexivity. Qed.

Create HintDb store.
#[local] Hint Resolve keepsStore_ret keepsStore_throw keepsStore_lift
  keepsStore_external keepsStore_read_clock : store.

Lemma keepsStore_chat w req : keepsStore (chat w req).
Proof. intros s. reflexivity. Qed.

#[local] Hint Resolve keepsStore_chat : store.

Ltac keeps_store :=
  repeat first
    [ solve [ auto with store ]
    | apply keepsStore_try_catch
    | apply keepsStore_bind
    | match goal with
      | |- forall _, _ => intro
      | |- keepsStore (if ?b then _ else _) => destruct b
      end ].

Lemma keepsStore_generateSummary w text : keepsStore (generateSummary w text).
Proof. unfold generateSummary. keeps_store. Qed.

#[local] Hint Resolve keepsStore_generateSummary : store.

Lemma keepsStore_extractStructuredData w text :
  keepsStore (extractStructuredData w text).
Proof. unfold extractStructuredData. keeps_store. Qed.

Lemma keepsStore_extractText w file : keepsStore (extractText w file).
Proof. unfold extractText. keeps_store. Qed.

#[local] Hint Resolve keepsStore_extractStructuredData keepsStore_extractText
  : store.

Lemma keepsStore_processDocument w file : keepsStore (processDocument w file).
Proof. unfold processDocument. keeps_store. Qed.

Lemma keepsStore_read_store : keepsStore read_store.
Proof. intros s. reflexivity. Qed.

#[local] Hint Resolve keepsStore_read_store : store.

Lemma keepsStore_searchSimilarDocuments w query limit :
  keepsStore (searchSimilarDocuments w query limit).
Proof. unfold searchSimilarDocuments, similaritySearch. keeps_store. Qed.

Lemma serve_keeps_store w s r : vectorStore (serve w s r) = vectorStore s.
Proof.
  destruct r as [file | query limit]; unfold serve.
  - exact (keepsStore_processDocument w file s).
  - exact (keepsStore_searchSimilarDocuments w query limit s).
Qed.

Lemma serveAll_keeps_store w requests s :
  vectorStore (serveAll w requests s) = vectorStore s.
Proof.
  unfold serveAll. revert s.
  induction requests as [| r requests IH]; intros s; simpl; [reflexivity |].
  rewrite IH. apply serve_keeps_store.
Qed.

Lemma initial_store_empty w : vectorStore (initial w) = [].
Proof.
  unfold initial.
  assert (H : keepsStore (testOpenAIConnection w))
    by (unfold testOpenAIConnection; keeps_store).
  now rewrite H.
Qed.

(** The search over an empty store: the answer of the embedding decides. *)
Lemma search_empty_store w query limit s :
  vectorStore s = [] ->
  fst (searchSimilarDocuments w query limit s) =
  match embeddings_embedQuery w (calls s) query with
  | Ok _ => Ok []
  | Throw e => Throw e
  end.
Proof.
  intros H.
  unfold searchSimilarDocuments, similaritySearch, bind, external, read_store, ret.
  destruct (embeddings_embedQuery w (calls s) query); [| reflexivity].
  cbn [fst snd vectorStore]. rewrite H. simpl. now rewrite firstn_nil.
Qed.

(** C9, as the code has it.  Neither [processDocument] nor
    [searchSimilarDocuments] changes the vector store, which the
    constructor creates empty; so after any sequence of those requests
    the store is empty and [searchSimilarDocuments] never returns an
    entry: for every query and every limit it answers the empty
    sequence when the embedding of the query succeeds, and fails with
    the error of the embedding otherwise. *)
Theorem C9_vector_store_stays_empty w requests :
  (forall s r, vectorStore (serve w s r) = vectorStore s)
  /\
  vectorStore (serveAll w requests (initial w)) = []
  /\
  (forall query limit,
      (forall results,
          fst (searchSimilarDocuments w query limit
                 (serveAll w requests (initial w))) = Ok results ->
          results = [])
      /\
      (forall score,
          embeddings_embedQuery w (calls (serveAll w requests (initial w))) query =
          Ok score ->
          fst (searchSimilarDocuments w query limit
                 (serveAll w requests (initial w))) = Ok [])
      /\
      (forall e,
          embeddings_embedQuery w (calls (serveAll w requests (initial w))) query =
          Throw e ->
          fst (searchSimilarDocuments w query limit
                 (serveAll w requests (initial w))) = Throw e)).
Proof.
  assert (Hempty : vectorStore (serveAll w requests (initial w)) = [])
    by (rewrite serveAll_keeps_store; apply initial_store_empty).
  split; [intros s r; apply serve_keeps_store |].
  split; [exact Hempty |].
  intros query limit. rewrite (search_empty_store _ _ _ _ Hempty).
  destruct (embeddings_embedQuery w _ query) as [score | e]; repeat split.
  - intros results H. now inversion H.
  - discriminate.
  - discriminate.
  - discriminate.
  - intros e' H. now inversion H.
Qed.

Lemma C9_vector_store_stays_empty_witness :
  fst (searchSimilarDocuments Examples.janeDoeWorld "headache" (Some 3%Z)
         (serveAll Examples.janeDoeWorld
            [ ProcessDocument Examples.pdfFile;
              SearchSimilarDocuments "fever" None ]
            (initial Examples.janeDoeWorld))) = Ok [].
Proof.
  apply (proj1 (proj2 (proj2 (proj2 (C9_vector_store_stays_empty
           Examples.janeDoeWorld
           [ ProcessDocument Examples.pdfFile;
             SearchSimilarDocuments "fever" None ])) "headache" (Some 3%Z)))
         (fun _ => 0%Z)).
  reflexivity.
Defined.

(** The embedding service is down: the search over the empty store does
    not answer the empty sequence, it fails. *)
Lemma C9_counterexample :
  vectorStore (serveAll Examples.embeddingDownWorld []
                 (initial Examples.embeddingDownWorld)) = [] /\
  fst (searchSimilarDocuments Examples.embeddingDownWorld "headache" None
         (serveAll Examples.embeddingDownWorld []
            (initial Examples.embeddingDownWorld))) =
  Throw (Error "503 Service Unavailable") /\
  fst (searchSimilarDocuments Examples.embeddingDownWorld "headache" None
         (serveAll Examples.embeddingDownWorld []
            (initial Examples.embeddingDownWorld))) <> Ok [].
Proof. repeat split. discriminate. Qed.

(* ================================================================== *)
(** * Further properties of the processor *)
(* ================================================================== *)

Import Facade Routes.

(** ** The log only grows *)

Lemma processDocument_run w file s :
  processDocument w file s =
  match extractText w file s with
  | (Throw e, s1) => (Throw e, s1)
  | (Ok text, s1) =>
      match extractStructuredData w text s1 with
      | (Throw e, s2) => (Throw e, s2)
      | (Ok extractedData, s2) =>
          match medicalRecord (date_toISOString w (calls s2)) file text
                  extractedData with
          | Ok record => (Ok record, s2)
          | Throw e => (Throw e, s2)
          end
      end
  end.
Proof.
  unfold processDocument, try_catch, bind, lift, read_clock, throw.
  destruct (extractText w file s) as [[text | e] s1]; [| reflexivity].
  destruct (extractStructuredData w text s1) as [[x | e] s2]; [| reflexivity].
  destruct (medicalRecord _ file text x); reflexivity.
Qed.

Lemma extractText_calls w file s :
  calls (snd (extractText w file s)) =
  (calls s ++ trace (extractText w file) s)%list.
Proof.
  assert (H : exists t, calls (snd (extractText w file s)) = (calls s ++ t)%list).
  { rewrite extractText_run. unfold checked.
    destruct (String.eqb _ _); cbv zeta.
    - destruct (fs_readFileSync _ _ _) as [buffer |]; [| simpl; eauto].
      destruct (pdf_parse _ _ _) as [text |];
        [destruct (noText text) |]; simpl; rewrite <- app_assoc; eauto.
    - destruct (tesseract_recognize _ _ _ _) as [text |];
        [destruct (noText text) |]; simpl; eauto. }
  destruct H as [t H]. now rewrite (trace_logged _ _ _ H).
Qed.

(** What [extractStructuredData] adds to the log: the extraction
    request, and the summary request or not. *)
Lemma extractStructuredData_calls w text s :
  calls (snd (extractStructuredData w text s)) =
    (calls s ++ [ ChatCompletionsCreate (extractionRequest text) ])%list
  \/
  calls (snd (extractStructuredData w text s)) =
    (calls s ++ [ ChatCompletionsCreate (extractionRequest text);
                  ChatCompletionsCreate (summaryRequest text) ])%list.
Proof.
  rewrite extractStructuredData_run. cbv zeta.
  destruct (chat_completions_create w (calls s) _) as [content |]; [| now left].
  destruct (normalizedRecord _ content) as [fd |]; [| now left].
  destruct (hasMeaningfulData fd); [| now left].
  right.
  destruct (chat_completions_create w _ (summaryRequest text));
    [destruct (set_prop _ _ _) |]; simpl; now rewrite <- app_assoc.
Qed.

Lemma processDocument_calls w file s :
  exists rest,
    calls (snd (processDocument w file s)) =
      (calls s ++ trace (extractText w file) s ++ rest)%list /\
    (rest = [] /\ (forall text, fst (extractText w file s) <> Ok text)
     \/
     exists text,
       fst (extractText w file s) = Ok text /\
       (rest = [ ChatCompletionsCreate (extractionRequest text) ] \/
        rest = [ ChatCompletionsCreate (extractionRequest text);
                 ChatCompletionsCreate (summaryRequest text) ])).
Proof.
  rewrite processDocument_run.
  pose proof (extractText_calls w file s) as Htext.
  destruct (extractText w file s) as [[text | e] s1]; simpl in Htext.
  - assert (Hsnd : forall rest,
               calls (snd (extractStructuredData w text s1)) = (calls s1 ++ rest)%list ->
               calls (snd (match extractStructuredData w text s1 with
                           | (Throw e, s2) => (Throw e, s2)
                           | (Ok x, s2) =>
                               match medicalRecord (date_toISOString w (calls s2))
                                       file text x with
                               | Ok record => (Ok record, s2)
                               | Throw e => (Throw e, s2)
                               end
                           end)) =
               (calls s ++ trace (extractText w file) s ++ rest)%list).
    { intros rest Hrest. rewrite app_assoc, <- Htext, <- Hrest.
      destruct (extractStructuredData w text s1) as [[x | e] s2];
        [destruct (medicalRecord _ _ _ _) |]; reflexivity. }
    destruct (extractStructuredData_calls w text s1) as [H | H];
      eexists; (split; [apply Hsnd; exact H |]); right; exists text; auto.
  - exists []. rewrite app_nil_r. split; [exact Htext |].
    left. split; [reflexivity | discriminate].
Qed.

Lemma completions_app l l' :
  completions (l ++ l') = completions l + completions l'.
Proof.
  induction l as [| c l IH]; simpl; [reflexivity |].
  destruct c; simpl; now rewrite IH.
Qed.

Lemma extractText_trace_outside w file s :
  completions (trace (extractText w file) s) = 0 /\
  forall query, ~ In (EmbedQuery query) (trace (extractText w file) s).
Proof.
  assert (H : exists t, calls (snd (extractText w file s)) = (calls s ++ t)%list /\
                        completions t = 0 /\
                        forall query, ~ In (EmbedQuery query) t).
  { rewrite extractText_run. unfold checked.
    destruct (String.eqb _ _); cbv zeta.
    - destruct (fs_readFileSync _ _ _) as [buffer |].
      + exists [ ReadFileSync (path file); PdfParse buffer ].
        split; [| split; [reflexivity |]].
        * destruct (pdf_parse _ _ _) as [text |];
            [destruct (noText text) |]; simpl; now rewrite <- app_assoc.
        * intros query [H | [H | []]]; discriminate.
      + exists [ ReadFileSync (path file) ].
        split; [reflexivity | split; [reflexivity |]].
        intros query [H | []]; discriminate.
    - exists [ TesseractRecognize (path file) "eng" ].
      split; [| split; [reflexivity |]].
      + destruct (tesseract_recognize _ _ _ _) as [text |];
          [destruct (noText text) |]; reflexivity.
      + intros query [H | []]; discriminate. }
  destruct H as (t & Hcalls & Hcount & Hembed).
  now rewrite (trace_logged _ _ _ Hcalls).
Qed.

(** ** [processDocument]: calls and provenance *)

(** X1.  When text extraction fails, [processDocument] fails with that
    same error and stops there: its calls are those of the text
    extraction, none of them a chat completion. *)
Theorem X1_no_text_no_model_call w file s e :
  fst (extractText w file s) = Throw e ->
  processDocument w file s = (Throw e, snd (extractText w file s)) /\
  trace (processDocument w file) s = trace (extractText w file) s /\
  completions (trace (processDocument w file) s) = 0.
Proof.
  intros Hfail.
  assert (Hrun : processDocument w file s = (Throw e, snd (extractText w file s))).
  { rewrite processDocument_run.
    destruct (extractText w file s) as [[text | e'] s1]; simpl in Hfail;
      [discriminate |].
    now inversion Hfail. }
  assert (Htrace : trace (processDocument w file) s = trace (extractText w file) s).
  { apply trace_logged. rewrite Hrun. apply extractText_calls. }
  repeat split; [exact Hrun | exact Htrace |].
  rewrite Htrace. apply extractText_trace_outside.
Qed.

Lemma X1_no_text_no_model_call_witness :
  processDocument Examples.corruptWorld Examples.scanFile Examples.fresh =
    (Throw (extractionFailure "Error attempting to read image."),
     snd (extractText Examples.corruptWorld Examples.scanFile Examples.fresh)) /\
  trace (processDocument Examples.corruptWorld Examples.scanFile) Examples.fresh =
    trace (extractText Examples.corruptWorld Examples.scanFile) Examples.fresh /\
  completions
    (trace (processDocument Examples.corruptWorld Examples.scanFile) Examples.fresh)
  = 0.
Proof.
  apply (X1_no_text_no_model_call Examples.corruptWorld Examples.scanFile
           Examples.fresh).
  reflexivity.
Defined.

(** X2.  The calls of [processDocument] are those of the text
    extraction followed by nothing, when no text was extracted, or by
    the extraction request for the very text extracted, alone or
    followed by the summary request for that text.  So a document costs
    at most two chat completions, and the embedding service is never
    called. *)
Theorem X2_processDocument_calls w file s :
  (exists rest,
      trace (processDocument w file) s =
        (trace (extractText w file) s ++ rest)%list /\
      (rest = [] /\ (forall text, fst (extractText w file s) <> Ok text)
       \/
       exists text,
         fst (extractText w file s) = Ok text /\
         (rest = [ ChatCompletionsCreate (extractionRequest text) ] \/
          rest = [ ChatCompletionsCreate (extractionRequest text);
                   ChatCompletionsCreate (summaryRequest text) ])))
  /\
  completions (trace (processDocument w file) s) <= 2
  /\
  (forall query, ~ In (EmbedQuery query) (trace (processDocument w file) s)).
Proof.
  destruct (processDocument_calls w file s) as (rest & Hcalls & Hrest).
  pose proof (trace_logged _ _ _ Hcalls) as Htrace.
  destruct (extractText_trace_outside w file s) as [Hcount Hembed].
  split; [exists rest; auto |].
  rewrite Htrace, completions_app, Hcount. split.
  - destruct Hrest as [[-> _] | (text & _ & [-> | ->])]; simpl; lia.
  - intros query Hin. apply in_app_or in Hin. destruct Hin as [Hin | Hin].
    + exact (Hembed query Hin).
    + destruct Hrest as [[-> _] | (text & _ & [-> | ->])]; simpl in Hin;
        repeat (destruct Hin as [Hin | Hin]; [discriminate |]); exact Hin.
Qed.

Lemma medicalRecord_total iso file text extractedData :
  nullish extractedData = false ->
  (exists meds, own extractedData "prescription" = VArr meds [] /\
                map_result copyMedication meds = Ok meds) ->
  exists record, medicalRecord iso file text extractedData = Ok record /\
                 own record "prescription" = own extractedData "prescription".
Proof.
  intros Hobj (meds & Hp & Hcopy).
  unfold medicalRecord, get_prop, and_then. rewrite Hobj, Hp. simpl.
  rewrite Hcopy. eexists. split; reflexivity.
Qed.

(** X3.  In the record [processDocument] returns, [originalText] is the
    text extracted from the file, the one the extraction request
    carried; [filePath] is the path of the file; and [documentType]
    equals [recordType]. *)
Theorem X3_record_provenance w file s record :
  fst (processDocument w file s) = Ok record ->
  exists text,
    fst (extractText w file s) = Ok text /\
    In (ChatCompletionsCreate (extractionRequest text))
       (trace (processDocument w file) s) /\
    own record "originalText" = str text /\
    own record "filePath" = str (path file) /\
    own record "documentType" = own record "recordType".
Proof.
  intros Hrun.
  destruct (processDocument_returns _ _ _ _ Hrun)
    as (text & s1 & extracted & s2 & Htext & _ & Hrec).
  destruct (medicalRecord_ok _ _ _ _ _ Hrec) as [meds ->].
  exists text. split; [now rewrite Htext |]. split; [| repeat split].
  destruct (processDocument_calls w file s)
    as (rest & Hcalls & [[_ Hno] | (text' & Htext' & Hrest)]);
    rewrite (trace_logged _ _ _ Hcalls).
  - exfalso. apply (Hno text). now rewrite Htext.
  - rewrite Htext in Htext'. simpl in Htext'. inversion Htext'. subst text'.
    apply in_or_app. right. destruct Hrest as [-> | ->]; simpl; auto.
Qed.

Lemma X3_record_provenance_witness :
  exists text,
    fst (extractText Examples.amoxicillinWorld Examples.pdfFile Examples.fresh) =
    Ok text /\
    In (ChatCompletionsCreate (extractionRequest text))
       (trace (processDocument Examples.amoxicillinWorld Examples.pdfFile)
          Examples.fresh) /\
    own Examples.amoxicillinRecord "originalText" = str text /\
    own Examples.amoxicillinRecord "filePath" = str (path Examples.pdfFile) /\
    own Examples.amoxicillinRecord "documentType" =
    own Examples.amoxicillinRecord "recordType".
Proof.
  apply (X3_record_provenance Examples.amoxicillinWorld Examples.pdfFile
           Examples.fresh).
  vm_compute. reflexivity.
Defined.

(** ** What the extractor hands to [processDocument] *)

Lemma or_or_same a d : orElse (orElse a d) d = orElse a d.
Proof.
  unfold orElse. destruct (truthy a) eqn:E; [now rewrite E |].
  now destruct (truthy d).
Qed.

Lemma normalizedPrescription_copy parsedData :
  exists meds,
    normalizedPrescription parsedData = VArr meds [] /\
    map_result copyMedication meds = Ok meds /\
    Forall (fun m => keys m = medicationKeys) meds.
Proof.
  unfold normalizedPrescription. destruct (isArray _).
  - eexists. split; [reflexivity |].
    assert (H : Forall (fun m => isMedicationObject m = true /\
                                 canonicalMedication m = m /\
                                 hasContent m = true /\ copyMedication m = Ok m)
                  (normalizeMedications
                     (AIProcessor.elements (own parsedData "prescription")))).
    { apply Forall_forall. intros m Hm.
      exact (normalized_medication m _ Hm). }
    split; [apply (normalizeMedications_fixed _ H) |].
    apply Forall_forall. intros m Hm.
    apply in_normalizeMedications in Hm.
    now destruct Hm as (_ & med & _ & _ & ->).
  - exists []. repeat split. constructor.
Qed.

(** The shape of every record [extractStructuredData] returns. *)
Lemma extractor_output w text s record :
  fst (extractStructuredData w text s) = Ok record ->
  exists a b c d meds n t tail,
    record =
    VObj ([ ("patientName", orElse a empty);
            ("date", orElse b
               (str (today (date_toISOString w
                  (calls (logged s
                     (ChatCompletionsCreate (extractionRequest text)))))))) ;
            ("doctorName", orElse c empty);
            ("diagnosis", orElse d empty);
            ("prescription", VArr meds []);
            ("notes", orElse n empty);
            ("recordType", orElse t (str "prescription")) ] ++ tail)%list /\
    (tail = [] \/ exists summary, tail = [ ("summary", str summary) ]) /\
    map_result copyMedication meds = Ok meds /\
    Forall (fun m => keys m = medicationKeys) meds.
Proof.
  rewrite extractStructuredData_run. cbv zeta.
  destruct (chat_completions_create w (calls s) _) as [content |]; [| discriminate].
  destruct (normalizedRecord _ content) as [fd |] eqn:E; [| discriminate].
  destruct (normalizedRecord_ok _ _ _ E) as (parsed & p & _ & Hens & ->).
  destruct (ensurePrescription_ok _ _ Hens) as (_ & _ & Hp & _).
  destruct (normalizedPrescription_copy parsed) as (meds & Hmeds & Hcopy & Hkeys).
  rewrite Hmeds in Hp.
  assert (Hshape : formattedOf
            (date_toISOString w (calls (logged s
               (ChatCompletionsCreate (extractionRequest text))))) p =
          VObj [ ("patientName", orElse (own p "patientName") empty);
                 ("date", orElse (own p "date")
                    (str (today (date_toISOString w (calls (logged s
                       (ChatCompletionsCreate (extractionRequest text))))))));
                 ("doctorName", orElse (own p "doctorName") empty);
                 ("diagnosis", orElse (own p "diagnosis") empty);
                 ("prescription", VArr meds []);
                 ("notes", orElse (own p "notes") empty);
                 ("recordType", orElse (own p "recordType") (str "prescription")) ]).
  { unfold formattedOf. now rewrite Hp. }
  intros H.
  exists (own p "patientName"), (own p "date"), (own p "doctorName"),
    (own p "diagnosis"), meds, (own p "notes"), (own p "recordType").
  destruct (hasMeaningfulData _).
  - destruct (chat_completions_create w _ (summaryRequest text)) as [sm |];
      [| discriminate].
    rewrite set_summary_formatted in H. simpl in H. inversion H.
    exists [ ("summary", str (content_or sm EmptyString)) ].
    rewrite Hp. repeat split; eauto.
  - cbn [fst] in H. injection H as <-. exists [].
    split; [exact Hshape |]. repeat split; auto.
Qed.

Lemma copyMedication_keys l l' :
  map_result copyMedication l = Ok l' ->
  Forall (fun m => keys m = medicationKeys) l'.
Proof.
  revert l'. induction l as [| med l IH]; simpl; intros l' H.
  - inversion H. constructor.
  - unfold and_then in H.
    destruct (copyMedication med) as [m |] eqn:Em; [| discriminate].
    destruct (map_result copyMedication l) as [ms |]; [| discriminate].
    inversion H. constructor; [| now apply IH].
    unfold copyMedication, get_prop, and_then in Em.
    destruct (nullish med); [discriminate |]. now inversion Em.
Qed.

Lemma date_kept b first second :
  orElse b (str first) <> empty ->
  orElse (orElse b (str first)) (str second) = orElse b (str first).
Proof.
  unfold orElse. destruct (truthy b) eqn:E; [now rewrite E |].
  destruct first; simpl; [intros H; now contradiction H | reflexivity].
Qed.

(** X4.  [processDocument] passes on what the extractor returned: once
    text extraction and [extractStructuredData] have returned, it
    returns too, and its record has the extractor's [patientName],
    [doctorName], [diagnosis], [prescription], [notes] and [recordType]
    unchanged, its [date] unchanged when that is not the empty string,
    and its [summary], or the empty string when the extractor set
    none. *)
Theorem X4_fields_pass_through w file s text s1 extractedData s2 :
  extractText w file s = (Ok text, s1) ->
  extractStructuredData w text s1 = (Ok extractedData, s2) ->
  exists record,
    processDocument w file s = (Ok record, s2) /\
    (forall k, In k [ "patientName"; "doctorName"; "diagnosis"; "prescription";
                      "notes"; "recordType" ] ->
               own record k = own extractedData k) /\
    (own extractedData "date" <> empty ->
     own record "date" = own extractedData "date") /\
    (own extractedData "summary" = VUndefined -> own record "summary" = empty) /\
    (own extractedData "summary" <> VUndefined ->
     own record "summary" = own extractedData "summary").
Proof.
  intros Htext Hext.
  assert (Hok : fst (extractStructuredData w text s1) = Ok extractedData)
    by now rewrite Hext.
  destruct (extractor_output _ _ _ _ Hok)
    as (a & b & c & d & meds & n & t & tail & -> & Htail & Hcopy & _).
  rewrite processDocument_run, Htext, Hext.
  assert (Hrec : forall iso,
    medicalRecord iso file text
      (VObj ([ ("patientName", orElse a empty);
               ("date", orElse b
                  (str (today (date_toISOString w
                     (calls (logged s1
                        (ChatCompletionsCreate (extractionRequest text))))))));
               ("doctorName", orElse c empty);
               ("diagnosis", orElse d empty);
               ("prescription", VArr meds []);
               ("notes", orElse n empty);
               ("recordType", orElse t (str "prescription")) ] ++ tail)%list) =
    Ok (VObj [ ("patientName", orElse a empty);
               ("date", orElse (orElse b
                  (str (today (date_toISOString w
                     (calls (logged s1
                        (ChatCompletionsCreate (extractionRequest text))))))))
                  (str (today iso)));
               ("doctorName", orElse c empty);
               ("diagnosis", orElse d empty);
               ("prescription", VArr meds []);
               ("notes", orElse n empty);
               ("recordType", orElse t (str "prescription"));
               ("documentType", orElse t (str "prescription"));
               ("filePath", str (path file));
               ("originalText", str text);
               ("summary", orElse (lookup "summary" tail) empty) ])).
  { intros iso. unfold medicalRecord, get_prop, and_then. simpl.
    rewrite Hcopy, !or_or_same.
    destruct Htail as [-> | [sm ->]]; reflexivity. }
  rewrite Hrec. eexists. split; [reflexivity |].
  split; [| split; [| split]].
  - intros k Hk. each_key Hk; reflexivity.
  - simpl own. intros Hdate. exact (date_kept _ _ _ Hdate).
  - destruct Htail as [-> | [sm ->]]; simpl own; [reflexivity | discriminate].
  - destruct Htail as [-> | [sm ->]]; simpl own; intros Hsm;
      [now contradiction Hsm |].
    unfold orElse. simpl. now destruct sm.
Qed.

Lemma X4_fields_pass_through_witness :
  exists record,
    processDocument Examples.amoxicillinWorld Examples.pdfFile Examples.fresh =
    (Ok record,
     snd (processDocument Examples.amoxicillinWorld Examples.pdfFile Examples.fresh))
    /\
    own record "prescription" =
    VArr [ VObj [ ("medicineName", VStr "Amoxicillin"); ("dosage", VStr "500mg");
                  ("duration", VStr "7 days"); ("tablets", empty) ] ] [].
Proof.
  destruct (X4_fields_pass_through Examples.amoxicillinWorld Examples.pdfFile
              Examples.fresh Examples.amoxicillinText
              (snd (extractText Examples.amoxicillinWorld Examples.pdfFile
                      Examples.fresh))
              (fst Examples.amoxicillinExtracted)
              (snd Examples.amoxicillinExtracted)
              ltac:(vm_compute; reflexivity) ltac:(vm_compute; reflexivity))
    as (record & Hrun & Hfields & _).
  exists record. split.
  - rewrite Hrun. reflexivity.
  - rewrite (Hfields "prescription") by (simpl; auto 10). reflexivity.
Defined.

(** X5.  The records have exactly the keys of the schema, in its order:
    the seven top-level keys, followed by [summary] or not, for
    [extractStructuredData], and those seven followed by
    [documentType], [filePath], [originalText] and [summary] for
    [processDocument]; every medication has exactly the four medication
    keys.  A property the model adds to its answer never reaches a
    record. *)
Theorem X5_exact_keys w text s :
  (forall record,
      fst (extractStructuredData w text s) = Ok record ->
      (keys record = topLevelKeys \/
       keys record = (topLevelKeys ++ [ "summary" ])%list) /\
      forall m, In m (AIProcessor.elements (own record "prescription")) ->
                keys m = medicationKeys)
  /\
  (forall file record,
      fst (processDocument w file s) = Ok record ->
      keys record = recordKeys /\
      forall m, In m (AIProcessor.elements (own record "prescription")) ->
                keys m = medicationKeys).
Proof.
  split.
  - intros record Hrun.
    destruct (extractor_output _ _ _ _ Hrun)
      as (a & b & c & d & meds & n & t & tail & -> & Htail & _ & Hkeys).
    split.
    + destruct Htail as [-> | [sm ->]]; [left | right]; reflexivity.
    + simpl. intros m Hm. exact (proj1 (Forall_forall _ _) Hkeys m Hm).
  - intros file record Hrun.
    destruct (processDocument_returns _ _ _ _ Hrun)
      as (text' & s1 & extracted & s2 & _ & _ & Hrec).
    destruct (medicalRecord_ok _ _ _ _ _ Hrec) as [meds Hshape].
    split; [now rewrite Hshape |].
    unfold medicalRecord, get_prop, and_then in Hrec.
    destruct (nullish extracted); [discriminate |].
    destruct (isArray (own extracted "prescription")).
    + destruct (map_result copyMedication _) as [meds' |] eqn:Ecopy;
        [| discriminate].
      injection Hrec as <-. simpl. intros m Hm.
      exact (proj1 (Forall_forall _ _) (copyMedication_keys _ _ Ecopy) m Hm).
    + injection Hrec as <-. simpl. intros m [].
Qed.

Lemma X5_exact_keys_witness :
  keys Examples.amoxicillinRecord = recordKeys /\
  forall m,
    In m (AIProcessor.elements (own Examples.amoxicillinRecord "prescription")) ->
    keys m = medicationKeys.
Proof.
  apply (proj2 (X5_exact_keys Examples.amoxicillinWorld EmptyString Examples.fresh)
           Examples.pdfFile Examples.amoxicillinRecord).
  vm_compute. reflexivity.
Defined.

(** ** Errors *)

(** X6.  A failure of the extraction request leaves
    [extractStructuredData] as it came, after that one call.  Every
    error [extractStructuredData] throws is the error of its extraction
    request or the parse failure; every error [processDocument] throws
    is an extraction failure of the text extractor, the error of the
    extraction request, or the parse failure. *)
Theorem X6_errors w text s :
  (forall e,
      chat_completions_create w (calls s) (extractionRequest text) = Throw e ->
      extractStructuredData w text s =
      (Throw e, logged s (ChatCompletionsCreate (extractionRequest text))))
  /\
  (forall e,
      fst (extractStructuredData w text s) = Throw e ->
      chat_completions_create w (calls s) (extractionRequest text) = Throw e \/
      e = parseFailure)
  /\
  (forall file e,
      fst (processDocument w file s) = Throw e ->
      (exists reason, e = extractionFailure reason) \/
      (exists text' log,
          fst (extractText w file s) = Ok text' /\
          chat_completions_create w log (extractionRequest text') = Throw e) \/
      e = parseFailure).
Proof.
  assert (Herrors : forall text s e,
             fst (extractStructuredData w text s) = Throw e ->
             chat_completions_create w (calls s) (extractionRequest text) = Throw e \/
             e = parseFailure).
  { clear. intros text s e. rewrite extractStructuredData_run. cbv zeta.
    destruct (chat_completions_create w (calls s) _) as [content | e'].
    - destruct (normalizedRecord _ content) as [fd |];
        [| intros H; right; now inversion H].
      destruct (hasMeaningfulData fd); [| discriminate].
      destruct (chat_completions_create w _ (summaryRequest text));
        [destruct (set_prop _ _ _); [discriminate |] |];
        intros H; right; now inversion H.
    - intros H. left. now inversion H. }
  split; [| split].
  - intros e Hfail. rewrite extractStructuredData_run. cbv zeta.
    now rewrite Hfail.
  - apply Herrors.
  - intros file e. rewrite processDocument_run.
    destruct (extractText w file s) as [[text' | e'] s1] eqn:Htext.
    + destruct (extractStructuredData w text' s1) as [[x | e''] s2] eqn:Hext.
      * assert (Hok : fst (extractStructuredData w text' s1) = Ok x)
          by now rewrite Hext.
        destruct (extractor_output _ _ _ _ Hok)
          as (a & b & c & d & meds & n & t & tail & -> & _ & Hcopy & _).
        unfold medicalRecord, get_prop, and_then. simpl. rewrite Hcopy.
        discriminate.
      * intros H. simpl in H. injection H as <-.
        destruct (Herrors text' s1 e'') as [Hchat | ->];
          [now rewrite Hext | | now right; right].
        right. left. exists text', (calls s1). split; [reflexivity | exact Hchat].
    + intros H. simpl in H. injection H as <-. left.
      assert (Hthrow : fst (extractText w file s) = Throw e')
        by now rewrite Htext.
      revert Hthrow. rewrite extractText_run. clear.
      destruct (String.eqb _ _); cbv zeta;
        [destruct (fs_readFileSync _ _ _); [destruct (pdf_parse _ _ _) |]
        | destruct (tesseract_recognize _ _ _ _)];
        simpl; intros H;
        try (apply checked_throw in H; subst e'; eauto);
        inversion H; eauto.
Qed.

Lemma X6_errors_witness :
  extractStructuredData
    (Examples.scripted (Throw (Error "401 Incorrect API key")) (Ok None) (Ok "x"))
    "Patient: Jane Doe" Examples.fresh =
  (Throw (Error "401 Incorrect API key"),
   logged Examples.fresh
     (ChatCompletionsCreate (extractionRequest "Patient: Jane Doe"))).
Proof.
  apply (proj1 (X6_errors
                  (Examples.scripted (Throw (Error "401 Incorrect API key"))
                     (Ok None) (Ok "x"))
                  "Patient: Jane Doe" Examples.fresh)).
  reflexivity.
Defined.

(** ** Text extraction by file type *)

(** X7.  A file declared [application/pdf] is read and handed to the
    PDF parser, never to OCR: when reading the file fails the parser is
    not called, otherwise the calls are the read and the parse of the
    bytes read, and a text with more than white space that the parser
    finds is returned. *)
Theorem X7_pdf_goes_to_parser w file s :
  mimetype file = "application/pdf" ->
  (forall image lang,
      ~ In (TesseractRecognize image lang) (trace (extractText w file) s))
  /\
  (forall e, fs_readFileSync w (calls s) (path file) = Throw e ->
             trace (extractText w file) s = [ ReadFileSync (path file) ])
  /\
  (forall fileBuffer,
      fs_readFileSync w (calls s) (path file) = Ok fileBuffer ->
      trace (extractText w file) s =
        [ ReadFileSync (path file); PdfParse fileBuffer ] /\
      forall text,
        pdf_parse w (calls (logged s (ReadFileSync (path file)))) fileBuffer =
        Ok text ->
        allSpace text = false ->
        fst (extractText w file s) = Ok text).
Proof.
  intros Hpdf. apply String.eqb_eq in Hpdf.
  assert (Hread : forall e,
             fs_readFileSync w (calls s) (path file) = Throw e ->
             trace (extractText w file) s = [ ReadFileSync (path file) ]).
  { intros e He. apply trace_logged. rewrite extractText_run, Hpdf. cbv zeta.
    now rewrite He. }
  assert (Hparse : forall fileBuffer,
             fs_readFileSync w (calls s) (path file) = Ok fileBuffer ->
             trace (extractText w file) s =
             [ ReadFileSync (path file); PdfParse fileBuffer ]).
  { intros fileBuffer Hb. apply trace_logged.
    rewrite extractText_run, Hpdf. cbv zeta. rewrite Hb.
    unfold checked.
    destruct (pdf_parse _ _ _) as [text |]; [destruct (noText text) |];
      simpl; now rewrite <- app_assoc. }
  split; [| split; [exact Hread |]].
  - intros image lang.
    destruct (fs_readFileSync w (calls s) (path file)) as [fileBuffer | e] eqn:E.
    + rewrite (Hparse fileBuffer eq_refl). intros [H | [H | []]]; discriminate.
    + rewrite (Hread e eq_refl). intros [H | []]; discriminate.
  - intros fileBuffer Hb. split; [exact (Hparse fileBuffer Hb) |].
    intros text Htext Hspace.
    rewrite extractText_run, Hpdf. cbv zeta. rewrite Hb, Htext.
    now rewrite checked_text.
Qed.

Lemma X7_pdf_goes_to_parser_witness :
  trace (extractText Examples.amoxicillinWorld Examples.pdfFile) Examples.fresh =
    [ ReadFileSync "uploads/document-3.pdf"; PdfParse "%PDF-1.4" ] /\
  fst (extractText Examples.amoxicillinWorld Examples.pdfFile Examples.fresh) =
    Ok Examples.amoxicillinText.
Proof.
  destruct (X7_pdf_goes_to_parser Examples.amoxicillinWorld Examples.pdfFile
              Examples.fresh eq_refl) as (_ & _ & Hparse).
  destruct (Hparse "%PDF-1.4" eq_refl) as [Htrace Htext].
  split; [exact Htrace |]. apply Htext; reflexivity.
Defined.

(** X8.  A file the upload filter of the routes lets through is a PDF,
    which [extractText] hands to the PDF parser, or a JPEG, PNG or GIF
    image, which it hands to OCR and to nothing else. *)
Theorem X8_filtered_uploads w file s :
  fileFilter file = true ->
  (mimetype file = "application/pdf" /\
   forall image lang,
     ~ In (TesseractRecognize image lang) (trace (extractText w file) s))
  \/
  (In (mimetype file) [ "image/jpeg"; "image/png"; "image/gif" ] /\
   trace (extractText w file) s = [ TesseractRecognize (path file) "eng" ]).
Proof.
  unfold fileFilter, allowedTypes. simpl. rewrite !orb_true_iff, !String.eqb_eq.
  intros [Himg | [Himg | [Himg | [Hpdf | Hno]]]]; try discriminate.
  1-3: right; split; [rewrite Himg; simpl; auto |];
       apply trace_logged; rewrite extractText_run, Himg; simpl;
       (destruct (tesseract_recognize _ _ _ _) as [text |];
        [unfold checked; destruct (noText text) |]; reflexivity).
  left. split; [assumption |].
  intros image lang.
  assert (Heqb : String.eqb (mimetype file) "application/pdf" = true)
    by now apply String.eqb_eq.
  assert (H : exists t, trace (extractText w file) s = t /\
                        ~ In (TesseractRecognize image lang) t).
  { destruct (fs_readFileSync w (calls s) (path file)) as [fileBuffer | e] eqn:E.
    - exists [ ReadFileSync (path file); PdfParse fileBuffer ]. split.
      + apply trace_logged. rewrite extractText_run, Heqb. cbv zeta. rewrite E.
        unfold checked.
        destruct (pdf_parse _ _ _) as [text |]; [destruct (noText text) |];
          simpl; now rewrite <- app_assoc.
      + intros [H | [H | []]]; discriminate.
    - exists [ ReadFileSync (path file) ]. split.
      + apply trace_logged. rewrite extractText_run, Heqb. cbv zeta.
        now rewrite E.
      + intros [H | []]; discriminate. }
  destruct H as (t & -> & Ht). exact Ht.
Qed.

Lemma X8_filtered_uploads_witness :
  (mimetype Examples.scanFile = "application/pdf" /\
   forall image lang,
     ~ In (TesseractRecognize image lang)
          (trace (extractText Examples.janeDoeWorld Examples.scanFile)
             Examples.fresh))
  \/
  (In (mimetype Examples.scanFile) [ "image/jpeg"; "image/png"; "image/gif" ] /\
   trace (extractText Examples.janeDoeWorld Examples.scanFile) Examples.fresh =
   [ TesseractRecognize (path Examples.scanFile) "eng" ]).
Proof.
  apply (X8_filtered_uploads Examples.janeDoeWorld Examples.scanFile
           Examples.fresh).
  reflexivity.
Defined.

(** ** [classifyDocumentType] and [getInstance] *)

Lemma lowerCase_idempotent c : lowerCase (lowerCase c) = lowerCase c.
Proof. destruct c as [[] [] [] [] [] [] [] []]; reflexivity. Qed.

Lemma toLowerCase_idempotent s : toLowerCase (toLowerCase s) = toLowerCase s.
Proof.
  induction s as [| c s IH]; simpl; [reflexivity |].
  now rewrite lowerCase_idempotent, IH.
Qed.

(** X9.  [classifyDocumentType] makes one call, the classification
    request.  When that fails, it fails with the same error.  When it
    is answered, the label returned is the answer in lower case, so
    lower-casing it again changes nothing, and it is [other] when the
    answer has no content; the label is not compared with the
    categories of the prompt. *)
Theorem X9_classification w text s :
  trace (classifyDocumentType w text) s =
    [ ChatCompletionsCreate (classificationRequest text) ]
  /\
  (forall e,
      chat_completions_create w (calls s) (classificationRequest text) = Throw e ->
      fst (classifyDocumentType w text s) = Throw e)
  /\
  (forall content,
      chat_completions_create w (calls s) (classificationRequest text) =
      Ok content ->
      exists label,
        fst (classifyDocumentType w text s) = Ok label /\
        toLowerCase label = label /\
        (content = None \/ content = Some EmptyString -> label = "other") /\
        (forall answer, content = Some answer -> answer <> EmptyString ->
                        label = toLowerCase answer)).
Proof.
  unfold trace, classifyDocumentType, chat, bind, external, ret.
  split; [| split].
  - destruct (chat_completions_create w (calls s) _); simpl;
      apply skipn_length_app.
  - intros e ->. reflexivity.
  - intros content ->. eexists. split; [reflexivity |].
    split; [apply toLowerCase_idempotent |]. split.
    + intros [-> | ->]; reflexivity.
    + intros answer -> Hne. destruct answer; [now contradiction Hne | reflexivity].
Qed.

Lemma X9_classification_witness :
  exists label,
    fst (classifyDocumentType Examples.capitalWorld "Rx: Amoxicillin"
           Examples.fresh) = Ok label /\
    toLowerCase label = label /\
    (Some "Prescription" = None \/ Some "Prescription" = Some EmptyString ->
     label = "other") /\
    (forall answer, Some "Prescription" = Some answer -> answer <> EmptyString ->
                    label = toLowerCase answer).
Proof.
  apply (proj2 (proj2 (X9_classification Examples.capitalWorld "Rx: Amoxicillin"
                         Examples.fresh)) (Some "Prescription")).
  reflexivity.
Defined.

Lemma getInstance_constructed w c : instance (getInstance w c) <> None.
Proof.
  unfold getInstance. destruct (instance c) eqn:E; simpl; congruence.
Qed.

Lemma getInstance_again w c : instance c <> None -> getInstance w c = c.
Proof.
  unfold getInstance. destruct (instance c); [reflexivity |].
  intros H. now contradiction H.
Qed.

(** X10.  [getInstance] builds the processor once: the first call
    creates it with an empty vector store and starts the connection
    test, whose answer it does not wait for, and any number of further
    calls change nothing and make no call. *)
Theorem X10_singleton w c n :
  instance (getInstance w c) <> None
  /\
  Nat.iter (S n) (getInstance w) c = getInstance w c
  /\
  (instance c = None ->
   instance (getInstance w c) = Some [] /\
   made (getInstance w c) =
     (made c ++ [ ChatCompletionsCreate testRequest ])%list)
  /\
  (instance c <> None -> getInstance w c = c).
Proof.
  split; [apply getInstance_constructed |].
  split; [| split; [| apply getInstance_again]].
  - induction n as [| n IH]; [reflexivity |].
    change (Nat.iter (S (S n)) (getInstance w) c)
      with (getInstance w (Nat.iter (S n) (getInstance w) c)).
    rewrite IH. apply getInstance_again, getInstance_constructed.
  - intros Hnone. unfold getInstance. rewrite Hnone.
    unfold construct, testOpenAIConnection, chat, try_catch, bind, external,
      ret, throw.
    cbn [calls vectorStore].
    destruct (chat_completions_create w (made c) testRequest); split; reflexivity.
Qed.

Lemma X10_singleton_witness :
  instance (getInstance Examples.corruptWorld {| instance := None; made := [] |}) =
    Some [] /\
  made (getInstance Examples.corruptWorld {| instance := None; made := [] |}) =
    [ ChatCompletionsCreate testRequest ].
Proof.
  apply (proj1 (proj2 (proj2 (X10_singleton Examples.corruptWorld
                                {| instance := None; made := [] |} 0)))).
  reflexivity.
Defined.

(** ** Code fences *)

Lemma not_backquote c : negb (Ascii.eqb c "`") = true -> "`"%char <> c.
Proof.
  intros H Heq. subst c. discriminate.
Qed.

Lemma prefix_fenceOpen_plain c s :
  negb (Ascii.eqb c "`") = true -> prefix fenceOpen (String c s) = false.
Proof.
  intros H. apply not_backquote in H. unfold fenceOpen.
  change ("```json" ++ nl) with (String "`" ("``json" ++ nl)).
  cbn [prefix]. destruct (ascii_dec "`" c); [contradiction | reflexivity].
Qed.

Lemma prefix_backquotes_plain s rest :
  noBackquote s = true -> prefix "`" rest = false ->
  prefix "```" (s ++ rest) = false.
Proof.
  intros Hs Hrest. destruct s as [| c s].
  - change (EmptyString ++ rest) with rest.
    destruct rest as [| x r]; [reflexivity |]. cbn [prefix] in *.
    destruct (ascii_dec "`" x); [destruct r; discriminate | reflexivity].
  - cbn [noBackquote] in Hs. apply andb_true_iff in Hs. destruct Hs as [Hc _].
    apply not_backquote in Hc.
    change (String c s ++ rest) with (String c (s ++ rest)). cbn [prefix].
    destruct (ascii_dec "`" c); [contradiction | reflexivity].
Qed.

Lemma prefix_fenceClose_plain c s rest :
  noBackquote s = true -> prefix "`" rest = false ->
  prefix fenceClose (String c (s ++ rest)) = false.
Proof.
  intros Hs Hrest. unfold fenceClose.
  change (nl ++ "```") with (String "010" "```").
  cbn [prefix]. destruct (ascii_dec "010" c); [| reflexivity].
  now apply prefix_backquotes_plain.
Qed.

(** A stretch without back quotes is left as it is. *)
Lemma replaceFences_plain body rest :
  noBackquote body = true -> prefix "`" rest = false ->
  replaceFences 0 (body ++ rest) = body ++ replaceFences 0 rest.
Proof.
  intros Hbody Hrest. induction body as [| c body IH]; [reflexivity |].
  simpl in Hbody. apply andb_true_iff in Hbody. destruct Hbody as [Hc Hbody].
  change (String c body ++ rest) with (String c (body ++ rest)).
  cbn [replaceFences].
  rewrite (prefix_fenceOpen_plain c _ Hc),
    (prefix_fenceClose_plain c body rest Hbody Hrest).
  now rewrite (IH Hbody).
Qed.

Lemma replaceFences_fenceOpen s :
  replaceFences 0 (fenceOpen ++ s) = replaceFences 0 s.
Proof. destruct s; reflexivity. Qed.

Lemma append_empty s : s ++ EmptyString = s.
Proof. induction s as [| c s IH]; simpl; [reflexivity | now rewrite IH]. Qed.

(** X11.  Cleaning the model's answer strips a [```json] fence: for a
    body without back quotes, the fenced body and the bare body both
    clean to the body trimmed, so they parse alike. *)
Theorem X11_json_fence_stripped body :
  noBackquote body = true ->
  cleanResult body = trim body /\
  cleanResult (fenceOpen ++ body ++ fenceClose) = trim body /\
  JSON.parse (cleanResult (fenceOpen ++ body ++ fenceClose)) =
  JSON.parse (cleanResult body).
Proof.
  intros Hbody.
  assert (Hbare : replaceFences 0 body = body).
  { rewrite <- (append_empty body) at 1.
    rewrite (replaceFences_plain body EmptyString Hbody eq_refl).
    apply append_empty. }
  assert (Hfenced : replaceFences 0 (fenceOpen ++ body ++ fenceClose) = body).
  { rewrite replaceFences_fenceOpen.
    rewrite (replaceFences_plain body fenceClose Hbody eq_refl).
    change (replaceFences 0 fenceClose) with EmptyString.
    apply append_empty. }
  unfold cleanResult. rewrite Hbare, Hfenced. repeat split.
Qed.

Lemma X11_json_fence_stripped_witness :
  cleanResult Examples.janeDoe = trim Examples.janeDoe /\
  cleanResult (fenceOpen ++ Examples.janeDoe ++ fenceClose) = trim Examples.janeDoe /\
  JSON.parse (cleanResult (fenceOpen ++ Examples.janeDoe ++ fenceClose)) =
  JSON.parse (cleanResult Examples.janeDoe).
Proof.
  apply (X11_json_fence_stripped Examples.janeDoe). reflexivity.
Defined.

Lemma rev_append_app u v acc :
  JS.rev_append (u ++ v) acc = JS.rev_append v (JS.rev_append u acc).
Proof.
  revert acc. induction u as [| c u IH]; intros acc; simpl; [reflexivity |].
  apply IH.
Qed.

Lemma trimStart_keeps c acc pre :
  is_space c = false ->
  exists u, trimStart (pre ++ String c acc) = u ++ String c acc.
Proof.
  intros Hc. induction pre as [| a pre [u IH]]; simpl.
  - exists EmptyString. now rewrite Hc.
  - destruct (is_space a); [now exists u |].
    now exists (String a pre).
Qed.

Lemma trimStart_rev_append_keeps c acc s pre :
  is_space c = false ->
  exists u, trimStart (JS.rev_append s (pre ++ String c acc)) = u ++ String c acc.
Proof.
  intros Hc. revert pre. induction s as [| a s IH]; intros pre; simpl.
  - now apply trimStart_keeps.
  - exact (IH (String a pre)).
Qed.

(** [trim] keeps a first character that is not white space. *)
Lemma trim_first c s :
  is_space c = false -> exists r, trim (String c s) = String c r.
Proof.
  intros Hc. unfold trim, trimEnd, reverse. simpl trimStart. rewrite Hc.
  simpl JS.rev_append at 2.
  destruct (trimStart_rev_append_keeps c EmptyString s EmptyString Hc) as [u Hu].
  simpl in Hu. rewrite Hu, rev_append_app. simpl. eauto.
Qed.

Lemma parse_backquote r :
  JSON.parse (String "`" r) = Throw (SyntaxError "Unexpected token in JSON").
Proof. reflexivity. Qed.

(** X12.  Only a fence tagged [json] is stripped.  An answer fenced
    with bare back quotes keeps its opening fence through the cleaning,
    so it does not parse and [extractStructuredData] fails with the
    parse failure, after the extraction request alone. *)
Theorem X12_bare_fence_fails w text s body :
  noBackquote body = true ->
  chat_completions_create w (calls s) (extractionRequest text) =
  Ok (Some ("```" ++ nl ++ body ++ fenceClose)) ->
  (exists r, cleanResult ("```" ++ nl ++ body ++ fenceClose) = String "`" r) /\
  extractStructuredData w text s =
  (Throw parseFailure, logged s (ChatCompletionsCreate (extractionRequest text))).
Proof.
  intros Hbody Hchat.
  assert (Hclean : exists r,
             cleanResult ("```" ++ nl ++ body ++ fenceClose) = String "`" r).
  { unfold cleanResult.
    assert (Hkept : replaceFences 0 ("```" ++ nl ++ body ++ fenceClose) =
                    "```" ++ nl ++ body).
    { change (replaceFences 0 ("```" ++ nl ++ body ++ fenceClose))
        with (String "`" (String "`" (String "`"
                (replaceFences 0 ((nl ++ body) ++ fenceClose))))).
      rewrite (replaceFences_plain (nl ++ body) fenceClose Hbody eq_refl).
      change (replaceFences 0 fenceClose) with EmptyString.
      now rewrite append_empty. }
    rewrite Hkept. apply trim_first. reflexivity. }
  split; [exact Hclean |].
  destruct Hclean as [r Hr].
  rewrite extractStructuredData_run. cbv zeta. rewrite Hchat.
  unfold normalizedRecord, and_then.
  change (content_or (Some ("```" ++ nl ++ body ++ fenceClose)) "{}")
    with ("```" ++ nl ++ body ++ fenceClose).
  now rewrite Hr, parse_backquote.
Qed.

Lemma X12_bare_fence_fails_witness :
  (exists r, cleanResult ("```" ++ nl ++ Examples.janeDoe ++ fenceClose) =
             String "`" r) /\
  extractStructuredData
    (Examples.scripted (Ok (Some ("```" ++ nl ++ Examples.janeDoe ++ fenceClose)))
       (Ok None) (Ok "x"))
    "Patient: Jane Doe" Examples.fresh =
  (Throw parseFailure,
   logged Examples.fresh
     (ChatCompletionsCreate (extractionRequest "Patient: Jane Doe"))).
Proof.
  apply (X12_bare_fence_fails
           (Examples.scripted
              (Ok (Some ("```" ++ nl ++ Examples.janeDoe ++ fenceClose)))
              (Ok None) (Ok "x"))
           "Patient: Jane Doe" Examples.fresh Examples.janeDoe);
    reflexivity.
Defined.

(** ** Medications again *)

(** X13.  Normalization treats each entry on its own and keeps the
    order: normalizing two sequences put end to end gives the two
    normalized sequences put end to end; and it never adds an entry. *)
Theorem X13_normalization_entrywise (first second : list value) :
  normalizeMedications (first ++ second) =
  (normalizeMedications first ++ normalizeMedications second)%list
  /\
  List.length (normalizeMedications first) <= List.length first.
Proof.
  unfold normalizeMedications. split.
  - now rewrite !filter_app, map_app, filter_app.
  - etransitivity; [apply filter_length_le |].
    rewrite length_map. apply filter_length_le.
Qed.

Lemma typeof_string_or_empty a :
  typeof_string (orElse a empty) = true <->
  typeof_string a = true \/ truthy a = false.
Proof.
  unfold orElse. destruct (truthy a) eqn:E.
  - split; [auto | intros [H | H]; [exact H | discriminate]].
  - split; [auto | reflexivity].
Qed.

(** X14.  The medication filter of the routes keeps a normalized
    medication exactly when each of [medicineName], [dosage] and
    [duration] was, in the model's entry, a string or a falsy or
    missing value: a medication whose dosage is a number other than
    zero goes through normalization and is dropped by the routes. *)
Theorem X14_route_filter_on_normalized med :
  isValidMedication (canonicalMedication med) = true <->
  forall k, In k [ "medicineName"; "dosage"; "duration" ] ->
            typeof_string (get_opt med k) = true \/ truthy (get_opt med k) = false.
Proof.
  unfold isValidMedication, canonicalMedication. simpl.
  rewrite !andb_true_iff, !typeof_string_or_empty. split.
  - intros [[H1 H2] H3] k Hk. each_key Hk; assumption.
  - intros H. repeat split; apply H; simpl; auto.
Qed.

Lemma X14_route_filter_on_normalized_witness :
  isValidMedication (canonicalMedication Examples.aspirin) = true /\
  hasContent (canonicalMedication Examples.numericDosage) = true /\
  isValidMedication (canonicalMedication Examples.numericDosage) = false.
Proof.
  split; [| split; reflexivity].
  apply (proj2 (X14_route_filter_on_normalized Examples.aspirin)).
  intros k Hk. simpl in Hk.
  destruct Hk as [<- | [<- | [<- | []]]]; [left | right | right]; reflexivity.
Defined.

(** ** The creation handler of the routes *)

Lemma recordDataAfterAI_run w userId u s :
  recordDataAfterAI w userId (Some u) s =
  match processDocument w (file u) s with
  | (Throw _, s') => (Ok (manualDefaults userId (date_toISOString w (calls s))), s')
  | (Ok extractedData, s') =>
      match ensureValidPrescription extractedData with
      | Throw _ => (Ok (manualDefaults userId (date_toISOString w (calls s))), s')
      | Ok extractedData' =>
          (Ok (VObj (update "attachments"
                       (VArr [ str ("/uploads/" ++ filename u) ] [])
                       (update "userId" userId (ownEntries extractedData')))),
           s')
      end
  end.
Proof.
  unfold recordDataAfterAI, read_clock, try_catch, bind, lift, ret.
  destruct (processDocument w (file u) s) as [[x | e] s']; [| reflexivity].
  destruct (ensureValidPrescription x); reflexivity.
Qed.

(** X15.  In the creation handler a failure of the processor is not
    fatal: the record data after the processing step is always there.
    Without a file no call is made, and without a file or when
    [processDocument] fails the record data are the manual defaults:
    the authenticated user, the record type [other] and the date of
    the clock. *)
Theorem X15_ai_failure_falls_back w userId upload s :
  (exists recordData, fst (recordDataAfterAI w userId upload s) = Ok recordData)
  /\
  (upload = None ->
   recordDataAfterAI w userId upload s =
   (Ok (manualDefaults userId (date_toISOString w (calls s))), s))
  /\
  (forall u e,
      upload = Some u ->
      fst (processDocument w (file u) s) = Throw e ->
      recordDataAfterAI w userId upload s =
      (Ok (manualDefaults userId (date_toISOString w (calls s))),
       snd (processDocument w (file u) s))).
Proof.
  split; [| split].
  - destruct upload as [u |]; [| eexists; reflexivity].
    rewrite recordDataAfterAI_run.
    destruct (processDocument w (file u) s) as [[x | e] s'];
      [destruct (ensureValidPrescription x) |]; eexists; reflexivity.
  - intros ->. reflexivity.
  - intros u e -> Hfail. rewrite recordDataAfterAI_run.
    destruct (processDocument w (file u) s) as [[x | e'] s']; [discriminate |].
    reflexivity.
Qed.

Lemma X15_ai_failure_falls_back_witness :
  recordDataAfterAI Examples.summaryDownWorld RouteExamples.userId
    (Some RouteExamples.pdfUpload) Examples.fresh =
  (Ok (manualDefaults RouteExamples.userId "2026-11-02T09:58:00.000Z"),
   snd (processDocument Examples.summaryDownWorld Examples.pdfFile Examples.fresh)).
Proof.
  apply (proj2 (proj2 (X15_ai_failure_falls_back Examples.summaryDownWorld
                         RouteExamples.userId (Some RouteExamples.pdfUpload)
                         Examples.fresh))
           RouteExamples.pdfUpload (Error "Failed to parse AI response")).
  - reflexivity.
  - vm_compute. reflexivity.
Defined.

(** X16.  When [processDocument] returns a record, the record data of
    the creation handler hold the authenticated user as [userId], the
    stored file as the one attachment, the record's fields other than
    [prescription] unchanged, and as [prescription] the record's
    medications that pass the medication filter. *)
Theorem X16_ai_record_merged w userId u s record :
  fst (processDocument w (file u) s) = Ok record ->
  exists recordData,
    fst (recordDataAfterAI w userId (Some u) s) = Ok recordData /\
    own recordData "userId" = userId /\
    own recordData "attachments" = VArr [ str ("/uploads/" ++ filename u) ] [] /\
    (forall k, In k recordKeys -> k <> "prescription" ->
               own recordData k = own record k) /\
    own recordData "prescription" =
    VArr (filter isValidMedication
            (AIProcessor.elements (own record "prescription"))) [].
Proof.
  intros Hrun. rewrite recordDataAfterAI_run.
  destruct (processDocument_returns _ _ _ _ Hrun)
    as (text & s1 & extracted & s2 & _ & _ & Hrec).
  destruct (medicalRecord_ok _ _ _ _ _ Hrec) as [meds ->].
  destruct (processDocument w (file u) s) as [[x | e] s']; [| discriminate].
  simpl in Hrun. injection Hrun as ->.
  unfold ensureValidPrescription, get_prop, and_then. simpl.
  eexists. split; [reflexivity |]. split; [reflexivity |].
  split; [reflexivity |]. split; [| reflexivity].
  intros k Hk Hne. unfold recordKeys in Hk.
  each_key Hk; try reflexivity.
Qed.

Lemma X16_ai_record_merged_witness :
  exists recordData,
    fst (recordDataAfterAI Examples.amoxicillinWorld RouteExamples.userId
           (Some RouteExamples.pdfUpload) Examples.fresh) = Ok recordData /\
    own recordData "userId" = RouteExamples.userId /\
    own recordData "attachments" =
      VArr [ str ("/uploads/" ++ filename RouteExamples.pdfUpload) ] [] /\
    (forall k, In k recordKeys -> k <> "prescription" ->
               own recordData k = own Examples.amoxicillinRecord k) /\
    own recordData "prescription" =
    VArr (filter isValidMedication
            (AIProcessor.elements
               (own Examples.amoxicillinRecord "prescription"))) [].
Proof.
  apply (X16_ai_record_merged Examples.amoxicillinWorld RouteExamples.userId
           RouteExamples.pdfUpload Examples.fresh Examples.amoxicillinRecord).
  vm_compute. reflexivity.
Defined.
